(** * Announcements router of the High School Management System API

    A shallow embedding of [src/backend/routers/announcements.py] and the
    properties of its five endpoints: the activity window of
    [get_active_announcements], the validation performed by
    [create_announcement] and [update_announcement], the frame of an update,
    and the authentication gate in front of every management endpoint.

    Layout: the Python values the handlers use ([Str], [Datetime], [Bson]),
    the two collections ([Mongo]), the handlers themselves ([Router]), an
    instance of the date-time library for concrete runs ([Iso]), the
    vocabulary of the statements, then the lemmas and theorems. *)

From Stdlib Require Import ZArith NArith List String Ascii Bool Lia.
From Stdlib Require Import Permutation Sorted.
Import ListNotations.

Local Open Scope string_scope.
Local Open Scope Z_scope.

(** ** Python strings

    A [str] is modelled by a Rocq [string] whose characters are the code
    points below 256. *)
Module Str.

Definition code (c : ascii) : Z := Z.of_N (N_of_ascii c).

(** [str.isspace] on one code point below 256: TAB..CR, FS..US, SPACE,
    NEL and NBSP. *)
Definition isspace (c : ascii) : bool :=
  let n := code c in
  ((9 <=? n) && (n <=? 13)) || ((28 <=? n) && (n <=? 32))
  || (n =? 133) || (n =? 160).

(** Truth value of a [str]: only the empty string is falsy. *)
Definition truthy (s : string) : bool :=
  match s with EmptyString => false | String _ _ => true end.

(** Truth value of an [Optional[str]]: [None] is falsy too. *)
Definition truthy_opt (o : option string) : bool :=
  match o with None => false | Some s => truthy s end.

Fixpoint lstrip (s : string) : string :=
  match s with
  | EmptyString => EmptyString
  | String c r => if isspace c then lstrip r else s
  end.

Fixpoint rstrip (s : string) : string :=
  match s with
  | EmptyString => EmptyString
  | String c r =>
      match rstrip r with
      | EmptyString => if isspace c then EmptyString else String c EmptyString
      | r' => String c r'
      end
  end.

(** [s.strip()] *)
Definition strip (s : string) : string := rstrip (lstrip s).

(** [len(s)] *)
Definition len (s : string) : Z := Z.of_nat (String.length s).

(** [s.replace(old, new)] for a one-character [old]. *)
Fixpoint replace (old : ascii) (new : string) (s : string) : string :=
  match s with
  | EmptyString => EmptyString
  | String c r =>
      if Ascii.eqb c old then String.append new (replace old new r)
      else String c (replace old new r)
  end.

(** Every character of [s] is whitespace. *)
Fixpoint whitespace_only (s : string) : bool :=
  match s with
  | EmptyString => true
  | String c r => isspace c && whitespace_only r
  end.

End Str.

(** ** [datetime.datetime]

    The seven calendar fields and the optional UTC offset (in microseconds)
    of an aware value; [tzinfo = None] is a naive value. *)
Module Datetime.

Record datetime : Type := mk {
  year : Z; month : Z; day : Z;
  hour : Z; minute : Z; second : Z; microsecond : Z;
  tzinfo : option Z
}.

Definition is_leap (y : Z) : bool :=
  (y mod 4 =? 0) && (negb (y mod 100 =? 0) || (y mod 400 =? 0)).

Definition days_in_month (y m : Z) : Z :=
  if m =? 2 then (if is_leap y then 29 else 28)
  else if (m =? 4) || (m =? 6) || (m =? 9) || (m =? 11) then 30
  else 31.

Definition days_before_year (y : Z) : Z :=
  let p := y - 1 in p * 365 + p / 4 - p / 100 + p / 400.

Fixpoint days_before_month_from (y : Z) (k : nat) (m : Z) : Z :=
  match k with
  | O => 0
  | S k' => days_before_month_from y k' (m - 1) + days_in_month y (m - 1)
  end.

Definition days_before_month (y m : Z) : Z :=
  days_before_month_from y (Z.to_nat (m - 1)) m.

(** Proleptic Gregorian ordinal, 0001-01-01 being day 1. *)
Definition toordinal (d : datetime) : Z :=
  days_before_year (year d) + days_before_month (year d) (month d) + day d.

(** Microseconds of the calendar fields since the start of day 0. *)
Definition wall_micros (d : datetime) : Z :=
  (((toordinal d * 24 + hour d) * 60 + minute d) * 60 + second d) * 1000000
  + microsecond d.

(** The instant a value denotes once its offset is subtracted; a naive
    value is read as UTC, which is how the driver encodes it. *)
Definition utc_micros (d : datetime) : Z :=
  match tzinfo d with
  | None => wall_micros d
  | Some off => wall_micros d - off
  end.

(** Ordering comparison of two values.  [None] stands for the [TypeError]
    Python raises when exactly one side is naive. *)
Definition cmp (a b : datetime) : option comparison :=
  match tzinfo a, tzinfo b with
  | None, None => Some (wall_micros a ?= wall_micros b)
  | Some oa, Some ob => Some (wall_micros a - oa ?= wall_micros b - ob)
  | _, _ => None
  end.

(** [a <= b] *)
Definition le (a b : datetime) : option bool :=
  match cmp a b with
  | Some Gt => Some false
  | Some _ => Some true
  | None => None
  end.

(** [a >= b] *)
Definition ge (a b : datetime) : option bool :=
  match cmp a b with
  | Some Lt => Some false
  | Some _ => Some true
  | None => None
  end.

(** [a < b] *)
Definition lt (a b : datetime) : option bool :=
  match cmp a b with
  | Some Lt => Some true
  | Some _ => Some false
  | None => None
  end.

(** The reading of the wall clock: [datetime.now()] is always naive. *)
Record clock : Type := at_clock {
  c_year : Z; c_month : Z; c_day : Z;
  c_hour : Z; c_minute : Z; c_second : Z; c_microsecond : Z
}.

Definition now (c : clock) : datetime :=
  mk (c_year c) (c_month c) (c_day c)
     (c_hour c) (c_minute c) (c_second c) (c_microsecond c) None.

(** The two library functions the handlers call.  [fromisoformat] answers
    [None] where Python raises [ValueError]. *)
Class Library : Type := {
  fromisoformat : string -> option datetime;
  isoformat : datetime -> string
}.

End Datetime.

(** ** [bson.ObjectId]

    A twelve-byte identifier, modelled by the number it encodes. *)
Module Bson.

Definition ObjectId : Type := N.

Definition hexval (c : ascii) : option N :=
  let n := N_of_ascii c in
  if ((48 <=? n) && (n <=? 57))%N then Some (n - 48)%N
  else if ((97 <=? n) && (n <=? 102))%N then Some (n - 87)%N
  else if ((65 <=? n) && (n <=? 70))%N then Some (n - 55)%N
  else None.

Fixpoint of_hex (acc : N) (s : string) : option N :=
  match s with
  | EmptyString => Some acc
  | String c r =>
      match hexval c with
      | Some v => of_hex (16 * acc + v)%N r
      | None => None
      end
  end.

(** [ObjectId(s)] for a [str]: 24 hexadecimal digits, else [InvalidId],
    rendered here as [None]. *)
Definition parse (s : string) : option ObjectId :=
  if Nat.eqb (String.length s) 24 then of_hex 0%N s else None.

Definition hexdigit (v : N) : ascii :=
  if (v <? 10)%N then ascii_of_N (48 + v) else ascii_of_N (87 + v).

Fixpoint to_hex (width : nat) (v : N) (tail : string) : string :=
  match width with
  | O => tail
  | S w => to_hex w (v / 16)%N (String (hexdigit (v mod 16)%N) tail)
  end.

(** [str(oid)] *)
Definition str (oid : ObjectId) : string := to_hex 24 oid EmptyString.

End Bson.

(** ** The two collections

    The module [..database], which declares [announcements_collection] and
    [teachers_collection], is not part of the sources at hand; what follows
    is the record store and the credential store as sections 3 and 6 of the
    specification describe them. *)
Module Mongo.
Import Datetime.

(** Modelled from the spec: the announcement entity of section 3, with the
    identifier the store assigns, the message, the optional start date, the
    expiration date and the creation time. *)
Record document : Type := mk_document {
  _id : Bson.ObjectId;
  message : string;
  start_date : option datetime;
  expiration_date : datetime;
  created_at : datetime
}.

(** Modelled from the spec: a principal of the credential store, found by
    its username. *)
Record teacher : Type := mk_teacher { teacher_id : string }.

(** Modelled from the spec: the record store and the credential store of
    section 6, each the list of its documents in the store's native order. *)
Record db : Type := mk_db {
  announcements_collection : list document;
  teachers_collection : list teacher
}.

Inductive field : Type := start_date_field | expiration_date_field.

Definition get (f : field) (d : document) : option datetime :=
  match f with
  | start_date_field => start_date d
  | expiration_date_field => Some (expiration_date d)
  end.

(** The filter documents the handlers build.  Points in time are compared
    by the instant they denote. *)
#[local] Set Warnings "-register-all".
Inductive query : Type :=
| q_all                              (* no filter *)
| q_and (qs : list query)            (* {"$and": [...]} *)
| q_or (qs : list query)             (* {"$or": [...]} *)
| q_null (f : field)                 (* {f: None} *)
| q_gt (f : field) (v : datetime)    (* {f: {"$gt": v}} *)
| q_lte (f : field) (v : datetime)   (* {f: {"$lte": v}} *)
| q_id (oid : Bson.ObjectId).        (* {"_id": oid} *)

Fixpoint matches (q : query) (d : document) : bool :=
  match q with
  | q_all => true
  | q_and qs => forallb (fun q' => matches q' d) qs
  | q_or qs => existsb (fun q' => matches q' d) qs
  | q_null f => match get f d with None => true | Some _ => false end
  | q_gt f v =>
      match get f d with
      | Some x => utc_micros v <? utc_micros x
      | None => false
      end
  | q_lte f v =>
      match get f d with
      | Some x => utc_micros x <=? utc_micros v
      | None => false
      end
  | q_id oid => N.eqb (_id d) oid
  end.

(** Modelled from the spec: find-many by predicate, [collection.find(q)];
    [find()] is [find q_all]. *)
Definition find (q : query) (c : list document) : list document :=
  filter (matches q) c.

(** Modelled from the spec: find-one, the first match in native order. *)
Definition find_one (q : query) (c : list document) : option document :=
  List.find (matches q) c.

(** Direction -1 on ["created_at"]: [a] may stand before [b] when it was
    created no earlier. *)
Definition created_no_earlier (a b : document) : bool :=
  utc_micros (created_at b) <=? utc_micros (created_at a).

Fixpoint insert_by_created_at (d : document) (l : list document)
    : list document :=
  match l with
  | [] => [d]
  | x :: r => if created_no_earlier d x then d :: l
              else x :: insert_by_created_at d r
  end.

(** Modelled from the spec: the sort key and direction of find-many,
    [cursor.sort("created_at", -1)]; documents created at the same instant
    keep the store's native order. *)
Definition sort_created_at_desc (c : list document) : list document :=
  fold_right insert_by_created_at [] c.

(** Modelled from the spec: identifiers are assigned by the store and
    unique; this one is carried by no document of the collection. *)
Definition fresh_id (c : list document) : Bson.ObjectId :=
  N.succ (fold_right (fun d m => N.max (_id d) m) 0%N c).

(** Modelled from the spec: insert, [collection.insert_one(doc)] for a
    [doc] without ["_id"]; the new document goes last and its identifier is
    returned. *)
Definition insert_one (m : string) (s : option datetime) (e c : datetime)
    (docs : list document) : Bson.ObjectId * list document :=
  let oid := fresh_id docs in
  (oid, (docs ++ [mk_document oid m s e c])%list).

(** The value of ["$set"] in [update_announcement]. *)
Record update_data : Type := mk_update {
  set_message : string;
  set_start_date : option datetime;
  set_expiration_date : datetime
}.

Definition apply_set (u : update_data) (d : document) : document :=
  mk_document (_id d) (set_message u) (set_start_date u)
              (set_expiration_date u) (created_at d).

(** Modelled from the spec: update-one with partial fields,
    [collection.update_one(q, {"$set": u})]; the first match is changed. *)
Fixpoint update_one (q : query) (u : update_data) (c : list document)
    : list document :=
  match c with
  | [] => []
  | d :: r => if matches q d then apply_set u d :: r
              else d :: update_one q u r
  end.

(** Modelled from the spec: delete-one, [collection.delete_one(q)]; the
    first match is removed. *)
Fixpoint delete_one (q : query) (c : list document) : list document :=
  match c with
  | [] => []
  | d :: r => if matches q d then r else d :: delete_one q r
  end.

(** Modelled from the spec: find-one by username,
    [teachers_collection.find_one({"_id": username})]. *)
Definition find_teacher (username : string) (c : list teacher)
    : option teacher :=
  List.find (fun t => String.eqb (teacher_id t) username) c.

End Mongo.

(** ** The handlers of [announcements.py] *)
Module Router.
Import Datetime Mongo.

(** What a handler can raise: the [HTTPException]s it builds itself, and the
    [TypeError] of the interpreter, which no handler catches. *)
Inductive exn : Type :=
| HTTPException (status_code : Z) (detail : string)
| TypeError (msg : string).

Inductive result (A : Type) : Type :=
| Return (a : A)
| Raise (e : exn).
Arguments Return {A} a.
Arguments Raise {A} e.

(** A handler runs against the database; an exception leaves the database
    as it is at the point of the [raise]. *)
Definition handler (A : Type) : Type := db -> result A * db.

Definition ret {A : Type} (a : A) : handler A := fun s => (Return a, s).

Definition raise {A : Type} (e : exn) : handler A := fun s => (Raise e, s).

Definition bind {A B : Type} (m : handler A) (k : A -> handler B)
    : handler B :=
  fun s =>
    match m s with
    | (Return a, s') => k a s'
    | (Raise e, s') => (Raise e, s')
    end.

Notation "x <- m ;; k" := (bind m (fun x => k))
  (at level 61, m at next level, right associativity).

Definition announcements : handler (list document) :=
  fun s => (Return (announcements_collection s), s).

Definition teachers : handler (list teacher) :=
  fun s => (Return (teachers_collection s), s).

Definition write (c : list document) : handler unit :=
  fun s => (Return tt, mk_db c (teachers_collection s)).

(** The value of an ordering comparison between two [datetime]s. *)
Definition ordering (r : option bool) : handler bool :=
  match r with
  | Some b => ret b
  | None =>
      raise (TypeError "can't compare offset-naive and offset-aware datetimes")
  end.

(** The dictionary a handler answers with: the identifier and the three
    points in time as text. *)
Record announcement : Type := mk_announcement {
  id_str : string;
  message_str : string;
  start_date_iso : option string;
  expiration_date_iso : string;
  created_at_iso : string
}.

Section Handlers.
Context {lib : Library}.

(** The conversion every handler applies to a document before answering:
    [str] of the identifier, [isoformat] of the points in time, the start
    date only when there is one. *)
Definition to_json (d : document) : announcement :=
  mk_announcement (Bson.str (_id d)) (message d)
                  (option_map isoformat (start_date d))
                  (isoformat (expiration_date d))
                  (isoformat (created_at d)).

Definition get_active_announcements (t : clock)
    : handler (list announcement) :=
  let now := Datetime.now t in
  let query :=
    q_and [ q_gt expiration_date_field now;
            q_or [ q_null start_date_field; q_lte start_date_field now ] ] in
  c <- announcements ;;
  ret (map to_json (sort_created_at_desc (find query c))).

Definition get_all_announcements (teacher_username : option string)
    : handler (list announcement) :=
  match teacher_username with
  | None => raise (HTTPException 401 "Authentication required for this action")
  | Some username =>
  if negb (Str.truthy username)
  then raise (HTTPException 401 "Authentication required for this action")
  else
  ts <- teachers ;;
  match find_teacher username ts with
  | None => raise (HTTPException 401 "Invalid teacher credentials")
  | Some _ =>
  c <- announcements ;;
  ret (map to_json (sort_created_at_desc (find q_all c)))
  end end.

(** The optional start date: absent and empty are both "no start date". *)
Definition parse_start_date (start_date : option string)
    : handler (option datetime) :=
  match start_date with
  | None => ret None
  | Some s =>
      if Str.truthy s then
        match fromisoformat (Str.replace "Z"%char "+00:00" s) with
        | Some d => ret (Some d)
        | None =>
            raise (HTTPException 400
                     "Invalid start_date format. Use ISO format.")
        end
      else ret None
  end.

(** [t_check] is the clock read by the future check, [t_created] the later
    one that stamps [created_at]. *)
Definition create_announcement (message expiration_date : string)
    (start_date teacher_username : option string) (t_check t_created : clock)
    : handler announcement :=
  match teacher_username with
  | None => raise (HTTPException 401 "Authentication required for this action")
  | Some username =>
  if negb (Str.truthy username)
  then raise (HTTPException 401 "Authentication required for this action")
  else
  ts <- teachers ;;
  match find_teacher username ts with
  | None => raise (HTTPException 401 "Invalid teacher credentials")
  | Some _ =>
  if negb (Str.truthy message) || (Str.len (Str.strip message) =? 0)
  then raise (HTTPException 400 "Message cannot be empty")
  else
  match fromisoformat (Str.replace "Z"%char "+00:00" expiration_date) with
  | None =>
      raise (HTTPException 400
               "Invalid expiration_date format. Use ISO format.")
  | Some exp_date =>
  start_dt <- parse_start_date start_date ;;
  past <- ordering (Datetime.le exp_date (Datetime.now t_check)) ;;
  if past
  then raise (HTTPException 400 "Expiration date must be in the future")
  else
  late <- match start_dt with
          | Some s => ordering (Datetime.ge s exp_date)
          | None => ret false
          end ;;
  if late
  then raise (HTTPException 400 "Start date must be before expiration date")
  else
  c <- announcements ;;
  let created := Datetime.now t_created in
  let (inserted_id, c') :=
    insert_one (Str.strip message) start_dt exp_date created c in
  _ <- write c' ;;
  ret (to_json (mk_document inserted_id (Str.strip message) start_dt
                            exp_date created))
  end end end.

Definition update_announcement (announcement_id message expiration_date : string)
    (start_date teacher_username : option string)
    : handler announcement :=
  match teacher_username with
  | None => raise (HTTPException 401 "Authentication required for this action")
  | Some username =>
  if negb (Str.truthy username)
  then raise (HTTPException 401 "Authentication required for this action")
  else
  ts <- teachers ;;
  match find_teacher username ts with
  | None => raise (HTTPException 401 "Invalid teacher credentials")
  | Some _ =>
  match Bson.parse announcement_id with
  | None => raise (HTTPException 400 "Invalid announcement ID format")
  | Some obj_id =>
  c <- announcements ;;
  match find_one (q_id obj_id) c with
  | None => raise (HTTPException 404 "Announcement not found")
  | Some _ =>
  if negb (Str.truthy message) || (Str.len (Str.strip message) =? 0)
  then raise (HTTPException 400 "Message cannot be empty")
  else
  match fromisoformat (Str.replace "Z"%char "+00:00" expiration_date) with
  | None =>
      raise (HTTPException 400
               "Invalid expiration_date format. Use ISO format.")
  | Some exp_date =>
  start_dt <- parse_start_date start_date ;;
  late <- match start_dt with
          | Some s => ordering (Datetime.ge s exp_date)
          | None => ret false
          end ;;
  if late
  then raise (HTTPException 400 "Start date must be before expiration date")
  else
  let update := mk_update (Str.strip message) start_dt exp_date in
  _ <- write (update_one (q_id obj_id) update c) ;;
  c2 <- announcements ;;
  match find_one (q_id obj_id) c2 with
  | Some updated_announcement => ret (to_json updated_announcement)
  | None => raise (TypeError "'NoneType' object is not subscriptable")
  end
  end end end end end.

Definition delete_announcement (announcement_id : string)
    (teacher_username : option string) : handler string :=
  match teacher_username with
  | None => raise (HTTPException 401 "Authentication required for this action")
  | Some username =>
  if negb (Str.truthy username)
  then raise (HTTPException 401 "Authentication required for this action")
  else
  ts <- teachers ;;
  match find_teacher username ts with
  | None => raise (HTTPException 401 "Invalid teacher credentials")
  | Some _ =>
  match Bson.parse announcement_id with
  | None => raise (HTTPException 400 "Invalid announcement ID format")
  | Some obj_id =>
  c <- announcements ;;
  match find_one (q_id obj_id) c with
  | None => raise (HTTPException 404 "Announcement not found")
  | Some _ =>
  _ <- write (delete_one (q_id obj_id) c) ;;
  ret "Announcement deleted successfully"
  end end end end.

End Handlers.
End Router.

(** ** An instance of the date-time library

    [fromisoformat] for the format documented for [datetime.fromisoformat]
    since Python 3.7,
    [YYYY-MM-DD[*HH[:MM[:SS[.fff[fff]]]][+HH:MM[:SS[.ffffff]]]]], and
    [isoformat] with the default separator.  The general theorems below hold
    for every [Library]; this one runs the scenarios. *)
Module Iso.
Import Datetime.

Definition digit (c : ascii) : option Z :=
  let n := Str.code c in
  if (48 <=? n) && (n <=? 57) then Some (n - 48) else None.

Fixpoint digits (k : nat) (acc : Z) (s : list ascii)
    : option (Z * list ascii) :=
  match k, s with
  | O, _ => Some (acc, s)
  | S k', c :: r =>
      match digit c with
      | Some d => digits k' (10 * acc + d) r
      | None => None
      end
  | S _, [] => None
  end.

(** [fff] or [ffffff], in microseconds. *)
Definition fraction (s : list ascii) : option Z :=
  match digits (List.length s) 0 s with
  | Some (v, _) =>
      if Nat.eqb (List.length s) 3 then Some (v * 1000)
      else if Nat.eqb (List.length s) 6 then Some v
      else None
  | None => None
  end.

(** [HH[:MM[:SS[.fff[fff]]]]] *)
Definition hh_mm_ss_ff (s : list ascii) : option (Z * Z * Z * Z) :=
  match digits 2 0 s with
  | Some (h, []) => Some (h, 0, 0, 0)
  | Some (h, c1 :: r1) =>
      if negb (Ascii.eqb c1 ":") then None else
      match digits 2 0 r1 with
      | Some (m, []) => Some (h, m, 0, 0)
      | Some (m, c2 :: r2) =>
          if negb (Ascii.eqb c2 ":") then None else
          match digits 2 0 r2 with
          | Some (sec, []) => Some (h, m, sec, 0)
          | Some (sec, c3 :: r3) =>
              if negb (Ascii.eqb c3 ".") then None else
              match fraction r3 with
              | Some us => Some (h, m, sec, us)
              | None => None
              end
          | None => None
          end
      | None => None
      end
  | None => None
  end.

(** The time of day and, after the first sign, the offset. *)
Fixpoint split_offset (s : list ascii)
    : list ascii * option (Z * list ascii) :=
  match s with
  | [] => ([], None)
  | c :: r =>
      if Ascii.eqb c "+" then ([], Some (1, r))
      else if Ascii.eqb c "-" then ([], Some (-1, r))
      else let (t, o) := split_offset r in (c :: t, o)
  end.

(** [HH:MM], [HH:MM:SS] or [HH:MM:SS.ffffff]; the resulting offset has to
    be strictly within a day. *)
Definition utcoffset (sign : Z) (body : list ascii) : option Z :=
  let n := List.length body in
  if negb (Nat.eqb n 5 || Nat.eqb n 8 || Nat.eqb n 15) then None else
  match hh_mm_ss_ff body with
  | Some (h, m, sec, us) =>
      let off := ((h * 60 + m) * 60 + sec) * 1000000 + us in
      if off <? 86400000000 then Some (sign * off) else None
  | None => None
  end.

(** The range checks of the [datetime] constructor. *)
Definition validate (d : datetime) : option datetime :=
  if (1 <=? year d) && (year d <=? 9999)
     && (1 <=? month d) && (month d <=? 12)
     && (1 <=? day d) && (day d <=? days_in_month (year d) (month d))
     && (hour d <=? 23) && (minute d <=? 59) && (second d <=? 59)
  then Some d else None.

Definition fromisoformat (date_string : string) : option datetime :=
  match digits 4 0 (list_ascii_of_string date_string) with
  | Some (y, d1 :: r1) =>
      if negb (Ascii.eqb d1 "-") then None else
      match digits 2 0 r1 with
      | Some (mo, d2 :: r2) =>
          if negb (Ascii.eqb d2 "-") then None else
          match digits 2 0 r2 with
          | Some (d, []) => validate (mk y mo d 0 0 0 0 None)
          | Some (d, _ :: t) =>
              let (tm, off) := split_offset t in
              match hh_mm_ss_ff tm, off with
              | Some (h, mi, sec, us), None =>
                  validate (mk y mo d h mi sec us None)
              | Some (h, mi, sec, us), Some (sign, body) =>
                  match utcoffset sign body with
                  | Some o => validate (mk y mo d h mi sec us (Some o))
                  | None => None
                  end
              | None, _ => None
              end
          | None => None
          end
      | _ => None
      end
  | _ => None
  end.

(** [n] in decimal on [width] digits, followed by [tail]. *)
Fixpoint dec (width : nat) (n : Z) (tail : string) : string :=
  match width with
  | O => tail
  | S w => dec w (n / 10) (String (ascii_of_N (Z.to_N (48 + n mod 10))) tail)
  end.

Definition format_fraction (us : Z) (tail : string) : string :=
  if us =? 0 then tail else String "." (dec 6 us tail).

Definition format_offset (off : Z) : string :=
  let a := Z.abs off in
  let us := a mod 1000000 in
  let s := a / 1000000 in
  String (if off <? 0 then "-"%char else "+"%char)
    (dec 2 (s / 3600) (String ":" (dec 2 (s / 60 mod 60)
       (if (s mod 60 =? 0) && (us =? 0) then EmptyString
        else String ":" (dec 2 (s mod 60) (format_fraction us EmptyString)))))).

Definition isoformat (d : datetime) : string :=
  dec 4 (year d) (String "-" (dec 2 (month d) (String "-" (dec 2 (day d)
    (String "T" (dec 2 (hour d) (String ":" (dec 2 (minute d) (String ":"
      (dec 2 (second d) (format_fraction (microsecond d)
         match tzinfo d with
         | None => EmptyString
         | Some off => format_offset off
         end))))))))))).

#[export] Instance python : Library :=
  {| Datetime.fromisoformat := fromisoformat;
     Datetime.isoformat := isoformat |}.

End Iso.

Import Datetime Mongo Router.

(** * Vocabulary of the statements *)

(** [a] was created no earlier than [b]. *)
Definition newest_first (a b : document) : Prop :=
  utc_micros (created_at b) <= utc_micros (created_at a).

(** The selection rule in the words of the specification: the expiration
    date is after [T], and the start date is absent or not after [T]. *)
Definition active_window (T : datetime) (A : document) : bool :=
  (utc_micros T <? utc_micros (expiration_date A))
  && match start_date A with
     | None => true
     | Some s => utc_micros s <=? utc_micros T
     end.

(** No credential was supplied: the parameter is absent or empty. *)
Definition no_credential (cred : option string) : Prop :=
  Str.truthy_opt cred = false.

(** A credential was supplied and names none of the teachers [ts]. *)
Definition unknown_credential (cred : option string) (ts : list teacher)
    : Prop :=
  exists u, cred = Some u /\ Str.truthy u = true /\ find_teacher u ts = None.

(** The credential names a teacher of the database. *)
Definition known_teacher (cred : option string) (s : db) : Prop :=
  exists u t, cred = Some u /\ Str.truthy u = true
              /\ find_teacher u (teachers_collection s) = Some t.

(** The status code of the [HTTPException] a run ended with, if any. *)
Definition status_of {A : Type} (run : result A * db) : option Z :=
  match fst run with
  | Raise (HTTPException code _) => Some code
  | _ => None
  end.

Definition auth_required : exn :=
  HTTPException 401 "Authentication required for this action".

Definition invalid_credentials : exn :=
  HTTPException 401 "Invalid teacher credentials".

Definition invalid_start_date : exn :=
  HTTPException 400 "Invalid start_date format. Use ISO format.".

Definition naive_aware_TypeError : exn :=
  TypeError "can't compare offset-naive and offset-aware datetimes".

Definition expiration_not_in_future : exn :=
  HTTPException 400 "Expiration date must be in the future".

(** The start date argument passes the rules create applies to it: it is
    absent or empty, or it parses to a date Python orders before the
    expiration date.  [start_dt] is the value the handler then holds. *)
Definition start_date_accepted {lib : Library} (start_date : option string)
    (exp_date : datetime) (start_dt : option datetime) : Prop :=
  (Str.truthy_opt start_date = false /\ start_dt = None)
  \/ (exists str sd,
         start_date = Some str /\ Str.truthy str = true
         /\ fromisoformat (Str.replace "Z"%char "+00:00" str) = Some sd
         /\ Datetime.lt sd exp_date = Some true
         /\ start_dt = Some sd).

(** The invariants of the data model on one document: the message is not
    empty, not made of whitespace only and already trimmed, and a start date,
    when there is one, is ordered before the expiration date. *)
Definition valid_document (d : document) : Prop :=
  Mongo.message d <> EmptyString
  /\ Str.whitespace_only (Mongo.message d) = false
  /\ Str.strip (Mongo.message d) = Mongo.message d
  /\ forall x, Mongo.start_date d = Some x ->
               Datetime.lt x (Mongo.expiration_date d) = Some true.

Definition valid_store (s : db) : Prop :=
  Forall valid_document (announcements_collection s).

(** One call of one of the five operations, with any arguments, at any
    clock, ending in any way. *)
Inductive step {lib : Library} : db -> db -> Prop :=
| step_get_active : forall t s r s',
    get_active_announcements t s = (r, s') -> step s s'
| step_get_all : forall cred s r s',
    get_all_announcements cred s = (r, s') -> step s s'
| step_create : forall m e sd cred t1 t2 s r s',
    create_announcement m e sd cred t1 t2 s = (r, s') -> step s s'
| step_update : forall i m e sd cred s r s',
    update_announcement i m e sd cred s = (r, s') -> step s s'
| step_delete : forall i cred s r s',
    delete_announcement i cred s = (r, s') -> step s s'.

(** The databases a sequence of calls leads to from [s0]. *)
Inductive reachable {lib : Library} (s0 : db) : db -> Prop :=
| reachable_start : reachable s0 s0
| reachable_step : forall s s', reachable s0 s -> step s s' -> reachable s0 s'.

(** No two stored announcements carry the same identifier. *)
Definition unique_ids (s : db) : Prop :=
  NoDup (map _id (announcements_collection s)).

(** The identifier names no stored announcement. *)
Definition absent_id (oid : Bson.ObjectId) (c : list document) : Prop :=
  Forall (fun d => _id d <> oid) c.


Definition announcement_not_found : exn :=
  HTTPException 404 "Announcement not found".

Definition message_empty : exn :=
  HTTPException 400 "Message cannot be empty".

Definition invalid_expiration_date : exn :=
  HTTPException 400 "Invalid expiration_date format. Use ISO format.".

(** The largest number 24 hexadecimal digits can write, plus one. *)
Definition id_bound : N := (16 ^ 24)%N.

(** A database with one teacher and no announcement, for the scenarios. *)
Definition school : db := mk_db [] [mk_teacher "mrodriguez"].

(** The same school once one announcement is stored. *)
Definition school_with_exam : db :=
  mk_db [mk_document 1%N "Exam tomorrow" None
           (mk 2099 1 1 0 0 0 0 None) (mk 2026 11 3 9 0 0 1 None)]
        [mk_teacher "mrodriguez"].

(** * Tactics for running a handler *)

Ltac run_handler :=
  unfold bind, ret, raise, teachers, announcements, write, ordering in *;
  simpl in *.

Ltac gate_missing H :=
  match type of H with
  | no_credential ?c =>
      destruct c as [?u|]; unfold no_credential in H; simpl in H;
      [rewrite H|]; reflexivity
  end.

Ltac gate_unknown H :=
  let u := fresh "u" in
  let Hc := fresh "Hc" in
  let Ht := fresh "Ht" in
  let Hf := fresh "Hf" in
  destruct H as (u & Hc & Ht & Hf); subst;
  rewrite Ht; run_handler; rewrite Hf; reflexivity.

Ltac pass_gate H :=
  let u := fresh "u" in
  let t := fresh "teacher" in
  let Ht := fresh "Ht" in
  let Hf := fresh "Hf" in
  destruct H as (u & t & -> & Ht & Hf);
  rewrite Ht; run_handler; rewrite Hf.

Ltac early_exit H := solve [inversion H; subst; left; eauto].

(** * Facts about the Python values *)

Lemma lstrip_head : forall s c r,
  Str.lstrip s = String c r -> Str.isspace c = false.
Proof.
  induction s as [|a s IH]; simpl; intros c r H.
  - discriminate.
  - destruct (Str.isspace a) eqn:E.
    + eauto.
    + inversion H; subst; assumption.
Qed.

Lemma rstrip_cons_nonspace : forall c r,
  Str.isspace c = false -> exists r', Str.rstrip (String c r) = String c r'.
Proof.
  intros c r H; simpl.
  destruct (Str.rstrip r); rewrite ?H; eauto.
Qed.

Lemma rstrip_idempotent : forall s, Str.rstrip (Str.rstrip s) = Str.rstrip s.
Proof.
  induction s as [|a s IH]; simpl; [reflexivity|].
  destruct (Str.rstrip s) as [|b t] eqn:E.
  - destruct (Str.isspace a) eqn:Ea; simpl; rewrite ?Ea; reflexivity.
  - simpl in IH |- *.
    destruct (Str.rstrip t) as [|b' t'] eqn:Et.
    + destruct (Str.isspace b) eqn:Eb; [discriminate|].
      inversion IH; subst; reflexivity.
    + inversion IH; subst; reflexivity.
Qed.

Lemma strip_idempotent : forall s, Str.strip (Str.strip s) = Str.strip s.
Proof.
  intros s; unfold Str.strip.
  destruct (Str.lstrip s) as [|c r] eqn:E; [reflexivity|].
  destruct (rstrip_cons_nonspace c r (lstrip_head _ _ _ E)) as [r' Hr].
  rewrite Hr.
  replace (Str.lstrip (String c r')) with (String c r')
    by (simpl; rewrite (lstrip_head _ _ _ E); reflexivity).
  rewrite <- Hr; apply rstrip_idempotent.
Qed.

Lemma whitespace_only_strip : forall s,
  Str.whitespace_only s = true -> Str.strip s = EmptyString.
Proof.
  unfold Str.strip; induction s as [|a s IH]; simpl; intros H; [reflexivity|].
  apply andb_true_iff in H as [Ha Hs]; rewrite Ha; auto.
Qed.

Lemma len_zero : forall s, (Str.len s =? 0) = negb (Str.truthy s).
Proof. destruct s; reflexivity. Qed.

(** What the message test of [create] and [update] lets through. *)
Lemma message_test_passes : forall m,
  negb (Str.truthy m) || (Str.len (Str.strip m) =? 0) = false ->
  Str.strip m <> EmptyString.
Proof.
  intros m H; apply orb_false_iff in H as [_ H].
  rewrite len_zero in H.
  destruct (Str.strip m); [discriminate | congruence].
Qed.

Lemma message_test_fails_on_blank : forall m,
  Str.strip m = EmptyString ->
  negb (Str.truthy m) || (Str.len (Str.strip m) =? 0) = true.
Proof. intros m H; rewrite H; apply orb_true_r. Qed.

Lemma message_test_passes_iff : forall m,
  negb (Str.truthy m) || (Str.len (Str.strip m) =? 0) = false <->
  Str.strip m <> EmptyString.
Proof.
  intros m; split; [apply message_test_passes|].
  intros H; destruct (negb (Str.truthy m) || _) eqn:E; [|reflexivity].
  exfalso; apply H.
  apply orb_true_iff in E as [E|E].
  - destruct m; [reflexivity | discriminate].
  - rewrite len_zero in E; destruct (Str.strip m); [reflexivity|discriminate].
Qed.

Lemma ge_false_lt : forall a b,
  Datetime.ge a b = Some false -> Datetime.lt a b = Some true.
Proof.
  unfold Datetime.ge, Datetime.lt; intros a b.
  destruct (cmp a b) as [[]|]; congruence.
Qed.

Lemma lt_true_ge : forall a b,
  Datetime.lt a b = Some true -> Datetime.ge a b = Some false.
Proof.
  unfold Datetime.ge, Datetime.lt; intros a b.
  destruct (cmp a b) as [[]|]; congruence.
Qed.

Lemma now_naive : forall t, tzinfo (Datetime.now t) = None.
Proof. reflexivity. Qed.

(** Against the clock, only a naive value can be ordered. *)
Lemma le_now_defined : forall d t,
  Datetime.le d (Datetime.now t) <> None <-> tzinfo d = None.
Proof.
  intros d t; unfold Datetime.le, cmp; rewrite now_naive.
  destruct (tzinfo d).
  - split; congruence.
  - split; [reflexivity|].
    intros _; destruct (_ ?= _); discriminate.
Qed.

(** * Sorting by creation time *)

Lemma insert_by_created_at_perm : forall d l,
  Permutation (d :: l) (insert_by_created_at d l).
Proof.
  intros d; induction l as [|x r IH]; simpl; [apply Permutation_refl|].
  destruct (created_no_earlier d x).
  - apply Permutation_refl.
  - eapply perm_trans; [apply perm_swap | apply perm_skip, IH].
Qed.

Lemma sort_created_at_desc_perm : forall l,
  Permutation l (sort_created_at_desc l).
Proof.
  induction l as [|d l IH]; simpl; [constructor|].
  eapply perm_trans; [apply perm_skip, IH | apply insert_by_created_at_perm].
Qed.

Lemma insert_by_created_at_sorted : forall d l,
  StronglySorted newest_first l ->
  StronglySorted newest_first (insert_by_created_at d l).
Proof.
  intros d; induction l as [|x r IH]; simpl; intros Hs.
  - repeat constructor.
  - inversion Hs as [|? ? Hr Hx]; subst.
    destruct (created_no_earlier d x) eqn:E; unfold created_no_earlier in E.
    + apply Z.leb_le in E.
      constructor; [assumption|].
      constructor; [exact E|].
      eapply Forall_impl; [|exact Hx].
      unfold newest_first; intros; lia.
    + apply Z.leb_gt in E.
      constructor; [auto|].
      eapply Permutation_Forall; [apply insert_by_created_at_perm|].
      constructor; [unfold newest_first; lia | assumption].
Qed.

Lemma sort_created_at_desc_sorted : forall l,
  StronglySorted newest_first (sort_created_at_desc l).
Proof.
  induction l; simpl; [constructor | apply insert_by_created_at_sorted; auto].
Qed.

(** * The activity window *)

Lemma active_query_matches : forall T A,
  matches
    (q_and [ q_gt expiration_date_field T;
             q_or [ q_null start_date_field; q_lte start_date_field T ] ]) A
  = active_window T A.
Proof.
  intros T A; unfold active_window; simpl.
  destruct (start_date A); simpl;
    rewrite ?andb_true_r, ?orb_false_r; reflexivity.
Qed.

Lemma active_window_spec : forall T A,
  active_window T A = true <->
  utc_micros (expiration_date A) > utc_micros T
  /\ (start_date A = None
      \/ exists s, start_date A = Some s /\ utc_micros s <= utc_micros T).
Proof.
  intros T A; unfold active_window.
  rewrite andb_true_iff, Z.ltb_lt.
  destruct (start_date A) as [s|].
  - rewrite Z.leb_le; split.
    + intros [H1 H2]; split; [lia | right; eauto].
    + intros [H1 [H2 | (s' & H2 & H3)]]; [discriminate|].
      inversion H2; subst; split; [lia | assumption].
  - split; [intros [H1 _]; split; [lia | auto] | intros [H1 _]; split; [lia|auto]].
Qed.

(** C1. At every clock reading [t] (read once) and for every database,
    [get_active_announcements] answers with the conversion of a list that
    (i) is a rearrangement of the stored announcements inside their
    activity window at [t], so (ii) holds exactly the stored announcements
    whose expiration date is after [t] and whose start date is absent or not
    after [t], and (iii) is ordered by [created_at], latest first.  The
    database is left as it was. *)
Theorem get_active_announcements_window :
  forall (lib : Library) (t : clock) (s : db),
  exists selected : list document,
    get_active_announcements t s = (Return (map to_json selected), s)
    /\ Permutation selected
         (filter (active_window (Datetime.now t)) (announcements_collection s))
    /\ (forall A, In A selected <->
          In A (announcements_collection s)
          /\ utc_micros (expiration_date A) > utc_micros (Datetime.now t)
          /\ (start_date A = None
              \/ exists sd, start_date A = Some sd
                            /\ utc_micros sd <= utc_micros (Datetime.now t)))
    /\ StronglySorted newest_first selected.
Proof.
  intros lib t s.
  set (T := Datetime.now t).
  set (picked := filter (active_window T) (announcements_collection s)).
  assert (Hfind : find
            (q_and [ q_gt expiration_date_field T;
                     q_or [ q_null start_date_field;
                            q_lte start_date_field T ] ])
            (announcements_collection s) = picked).
  { unfold find, picked; apply filter_ext; intros A.
    apply active_query_matches. }
  exists (sort_created_at_desc picked).
  split; [|split; [|split]].
  - unfold get_active_announcements, bind, announcements, ret.
    fold T; rewrite Hfind; reflexivity.
  - apply Permutation_sym, sort_created_at_desc_perm.
  - intros A; rewrite <- active_window_spec.
    rewrite <- filter_In; fold T; fold picked.
    split; apply Permutation_in;
      [apply Permutation_sym|]; apply sort_created_at_desc_perm.
  - apply sort_created_at_desc_sorted.
Qed.

(** * The authentication gate *)

Section Gate.
Context {lib : Library}.
Variables (s : db) (cred : option string).

Lemma get_all_missing : no_credential cred ->
  get_all_announcements cred s = (Raise auth_required, s).
Proof. intros H; unfold get_all_announcements; gate_missing H. Qed.

Lemma get_all_unknown : unknown_credential cred (teachers_collection s) ->
  get_all_announcements cred s = (Raise invalid_credentials, s).
Proof. intros H; unfold get_all_announcements; gate_unknown H. Qed.

Lemma create_missing : forall m e sd t1 t2, no_credential cred ->
  create_announcement m e sd cred t1 t2 s = (Raise auth_required, s).
Proof. intros m e sd t1 t2 H; unfold create_announcement; gate_missing H. Qed.

Lemma create_unknown : forall m e sd t1 t2, unknown_credential cred (teachers_collection s) ->
  create_announcement m e sd cred t1 t2 s = (Raise invalid_credentials, s).
Proof. intros m e sd t1 t2 H; unfold create_announcement; gate_unknown H. Qed.

Lemma update_missing : forall i m e sd, no_credential cred ->
  update_announcement i m e sd cred s = (Raise auth_required, s).
Proof. intros i m e sd H; unfold update_announcement; gate_missing H. Qed.

Lemma update_unknown : forall i m e sd, unknown_credential cred (teachers_collection s) ->
  update_announcement i m e sd cred s = (Raise invalid_credentials, s).
Proof. intros i m e sd H; unfold update_announcement; gate_unknown H. Qed.

Lemma delete_missing : forall i, no_credential cred ->
  delete_announcement i cred s = (Raise auth_required, s).
Proof. intros i H; unfold delete_announcement; gate_missing H. Qed.

Lemma delete_unknown : forall i, unknown_credential cred (teachers_collection s) ->
  delete_announcement i cred s = (Raise invalid_credentials, s).
Proof. intros i H; unfold delete_announcement; gate_unknown H. Qed.

End Gate.

(** C8, as stated, fails: on [school], [get_all_announcements] answers
    status 401 both without a credential and with one that names no
    teacher, so the two statuses do not differ. *)
Lemma missing_and_unknown_credential_share_status :
  status_of (get_all_announcements (lib := Iso.python) None school)
  = status_of (get_all_announcements (lib := Iso.python) (Some "nobody") school)
  /\ status_of (get_all_announcements (lib := Iso.python) None school)
     = Some 401.
Proof. split; reflexivity. Qed.

(** C8, amended.  In each of the four operations behind the gate and for
    all other arguments, a call without credential and a call with an
    unknown credential both end in an [HTTPException] of status 401; they
    differ in the detail only: "Authentication required for this action"
    against "Invalid teacher credentials". *)
Theorem credential_errors_share_status_401 :
  forall (lib : Library) (s : db) (absent unknown : option string),
    no_credential absent ->
    unknown_credential unknown (teachers_collection s) ->
    (forall i m e sd t1 t2,
        get_all_announcements absent s = (Raise auth_required, s)
        /\ get_all_announcements unknown s = (Raise invalid_credentials, s)
        /\ create_announcement m e sd absent t1 t2 s = (Raise auth_required, s)
        /\ create_announcement m e sd unknown t1 t2 s
           = (Raise invalid_credentials, s)
        /\ update_announcement i m e sd absent s = (Raise auth_required, s)
        /\ update_announcement i m e sd unknown s
           = (Raise invalid_credentials, s)
        /\ delete_announcement i absent s = (Raise auth_required, s)
        /\ delete_announcement i unknown s = (Raise invalid_credentials, s))
    /\ auth_required
       = HTTPException 401 "Authentication required for this action"
    /\ invalid_credentials = HTTPException 401 "Invalid teacher credentials"
    /\ auth_required <> invalid_credentials.
Proof.
  intros lib s absent unknown Ha Hu.
  split; [|split; [reflexivity | split; [reflexivity | discriminate]]].
  intros i m e sd t1 t2.
  repeat split;
    auto using get_all_missing, get_all_unknown, create_missing,
      create_unknown, update_missing, update_unknown, delete_missing,
      delete_unknown.
Qed.

Lemma credential_errors_share_status_401_witness :
  no_credential (Some "")
  /\ unknown_credential (Some "nobody") (teachers_collection school)
  /\ create_announcement (lib := Iso.python) "Exam tomorrow"
       "2099-01-01T00:00:00" None (Some "nobody")
       (at_clock 2026 11 3 9 0 0 0) (at_clock 2026 11 3 9 0 0 1) school
     = (Raise invalid_credentials, school).
Proof.
  assert (Ha : no_credential (Some "")) by reflexivity.
  assert (Hu : unknown_credential (Some "nobody") (teachers_collection school)).
  { exists "nobody"; repeat split; reflexivity. }
  split; [exact Ha | split; [exact Hu|]].
  exact (proj1 (proj2 (proj2 (proj2
    (proj1 (credential_errors_share_status_401 Iso.python school
              (Some "") (Some "nobody") Ha Hu)
       "" "Exam tomorrow" "2099-01-01T00:00:00" None
       (at_clock 2026 11 3 9 0 0 0) (at_clock 2026 11 3 9 0 0 1)))))).
Defined.

(** C10.  For each operation behind the gate (get-all, create, update,
    delete): when the credential is absent, empty or names no teacher, the
    call ends in an authentication error of status 401 whose detail depends
    on the credential alone, whatever the other arguments and the stored
    announcements are, and the database is the one the call started
    from. *)
Theorem authentication_precedes_everything :
  forall (lib : Library) (ts : list teacher) (cred : option string),
    no_credential cred \/ unknown_credential cred ts ->
    exists detail,
      forall docs i m e sd t1 t2,
        get_all_announcements cred (mk_db docs ts)
        = (Raise (HTTPException 401 detail), mk_db docs ts)
        /\ create_announcement m e sd cred t1 t2 (mk_db docs ts)
           = (Raise (HTTPException 401 detail), mk_db docs ts)
        /\ update_announcement i m e sd cred (mk_db docs ts)
           = (Raise (HTTPException 401 detail), mk_db docs ts)
        /\ delete_announcement i cred (mk_db docs ts)
           = (Raise (HTTPException 401 detail), mk_db docs ts).
Proof.
  intros lib ts cred [H|H].
  - exists "Authentication required for this action"; intros.
    repeat split;
      [apply get_all_missing | apply create_missing | apply update_missing
      | apply delete_missing]; exact H.
  - exists "Invalid teacher credentials"; intros.
    repeat split;
      [apply get_all_unknown | apply create_unknown | apply update_unknown
      | apply delete_unknown]; exact H.
Qed.

Lemma authentication_precedes_everything_witness :
  no_credential None
  /\ exists detail,
       delete_announcement "000000000000000000000001" None school_with_exam
       = (Raise (HTTPException 401 detail), school_with_exam).
Proof.
  split; [reflexivity|].
  destruct (authentication_precedes_everything Iso.python
              [mk_teacher "mrodriguez"] None (or_introl eq_refl))
    as [detail H].
  exists detail.
  exact (proj2 (proj2 (proj2
    (H (announcements_collection school_with_exam)
       "000000000000000000000001" "" "" None
       (at_clock 2026 11 3 9 0 0 0) (at_clock 2026 11 3 9 0 0 0))))).
Defined.

(** * Validation in [create_announcement] and [update_announcement] *)

Arguments parse_start_date : simpl never.

Section StartDate.
Context {lib : Library}.

Lemma parse_start_date_absent : forall s,
  parse_start_date None s = (Return None, s).
Proof. reflexivity. Qed.

Lemma parse_start_date_empty : forall s,
  parse_start_date (Some EmptyString) s = (Return None, s).
Proof. reflexivity. Qed.

Lemma parse_start_date_parsed : forall start d s,
  Str.truthy start = true ->
  fromisoformat (Str.replace "Z"%char "+00:00" start) = Some d ->
  parse_start_date (Some start) s = (Return (Some d), s).
Proof.
  intros start d s Ht Hp; unfold parse_start_date; rewrite Ht, Hp; reflexivity.
Qed.

Lemma parse_start_date_unparsable : forall start s,
  Str.truthy start = true ->
  fromisoformat (Str.replace "Z"%char "+00:00" start) = None ->
  parse_start_date (Some start) s = (Raise invalid_start_date, s).
Proof.
  intros start s Ht Hp; unfold parse_start_date; rewrite Ht, Hp; reflexivity.
Qed.

(** [parse_start_date] never touches the database, and the only thing it
    raises is the error about the format of the start date. *)
Lemma parse_start_date_cases : forall sd s,
  (exists o, parse_start_date sd s = (Return o, s))
  \/ parse_start_date sd s = (Raise invalid_start_date, s).
Proof.
  intros [start|] s; [|left; eexists; reflexivity].
  unfold parse_start_date.
  destruct (Str.truthy start); [|left; eexists; reflexivity].
  destruct (fromisoformat _); [left; eexists; reflexivity | right; reflexivity].
Qed.

End StartDate.

(** C9, as stated, fails on the empty string.  No date can be read from
    it, yet a create call that supplies it as start date succeeds: the
    handler takes an empty start date for an absent one. *)
Lemma empty_start_date_is_accepted :
  Iso.fromisoformat (Str.replace "Z"%char "+00:00" "") = None
  /\ create_announcement (lib := Iso.python) "Exam tomorrow"
       "2099-01-01T00:00:00" (Some "") (Some "mrodriguez")
       (at_clock 2026 11 3 9 0 0 0) (at_clock 2026 11 3 9 0 0 1) school
     = (Return (mk_announcement "000000000000000000000001" "Exam tomorrow"
                  None "2099-01-01T00:00:00" "2026-11-03T09:00:00.000001"),
        mk_db [mk_document 1%N "Exam tomorrow" None
                 (mk 2099 1 1 0 0 0 0 None) (mk 2026 11 3 9 0 0 1 None)]
              [mk_teacher "mrodriguez"]).
Proof. split; vm_compute; reflexivity. Qed.

(** C9, amended.  For a caller who names a teacher and a start date that is
    not empty and from which no date can be read: create ends in an
    [HTTPException] of status 400 (InvalidArgument) and leaves the database
    as it was; so does update, unless its identifier is well formed and
    names no stored announcement, in which case it ends in status 404. *)
Theorem unparsable_start_date_rejected :
  forall (lib : Library) (s : db) (cred : option string)
         (announcement_id message expiration_date start : string)
         (t_check t_created : clock),
    known_teacher cred s ->
    Str.truthy start = true ->
    fromisoformat (Str.replace "Z"%char "+00:00" start) = None ->
    (exists detail,
        create_announcement message expiration_date (Some start) cred
          t_check t_created s
        = (Raise (HTTPException 400 detail), s))
    /\ ((exists detail,
            update_announcement announcement_id message expiration_date
              (Some start) cred s
            = (Raise (HTTPException 400 detail), s))
        \/ (exists obj_id,
               Bson.parse announcement_id = Some obj_id
               /\ find_one (q_id obj_id) (announcements_collection s) = None
               /\ update_announcement announcement_id message expiration_date
                    (Some start) cred s
                  = (Raise (HTTPException 404 "Announcement not found"), s))).
Proof.
  intros lib s cred announcement_id message expiration_date start
         t_check t_created Hk Hs Hp.
  split.
  - unfold create_announcement; pass_gate Hk.
    destruct (negb (Str.truthy message) || _); [eexists; reflexivity|].
    destruct (fromisoformat (Str.replace "Z" "+00:00" expiration_date));
      [|eexists; reflexivity].
    rewrite (parse_start_date_unparsable start s Hs Hp).
    eexists; reflexivity.
  - unfold update_announcement; pass_gate Hk.
    destruct (Bson.parse announcement_id) as [obj_id|];
      [|left; eexists; reflexivity].
    destruct (find_one (q_id obj_id) (announcements_collection s)) eqn:Hfind;
      [left | right; exists obj_id; auto].
    destruct (negb (Str.truthy message) || _); [eexists; reflexivity|].
    destruct (fromisoformat (Str.replace "Z" "+00:00" expiration_date));
      [|eexists; reflexivity].
    rewrite (parse_start_date_unparsable start s Hs Hp).
    eexists; reflexivity.
Qed.

Lemma unparsable_start_date_rejected_witness :
  known_teacher (Some "mrodriguez") school
  /\ Iso.fromisoformat (Str.replace "Z"%char "+00:00" "next week") = None
  /\ exists detail,
       create_announcement (lib := Iso.python) "Exam tomorrow"
         "2099-01-01T00:00:00" (Some "next week") (Some "mrodriguez")
         (at_clock 2026 11 3 9 0 0 0) (at_clock 2026 11 3 9 0 0 1) school
       = (Raise (HTTPException 400 detail), school).
Proof.
  assert (Hk : known_teacher (Some "mrodriguez") school).
  { exists "mrodriguez", (mk_teacher "mrodriguez"); repeat split; reflexivity. }
  split; [exact Hk | split; [reflexivity|]].
  exact (proj1 (unparsable_start_date_rejected Iso.python school
                  (Some "mrodriguez") "000000000000000000000001"
                  "Exam tomorrow" "2099-01-01T00:00:00" "next week"
                  (at_clock 2026 11 3 9 0 0 0) (at_clock 2026 11 3 9 0 0 1)
                  Hk eq_refl eq_refl)).
Defined.

Arguments Datetime.le : simpl never.
Arguments Datetime.ge : simpl never.
Arguments Datetime.lt : simpl never.
Arguments Datetime.now : simpl never.

Lemma le_now_naive : forall d t,
  tzinfo d = None -> exists b, Datetime.le d (Datetime.now t) = Some b.
Proof.
  intros d t H.
  destruct (Datetime.le d (Datetime.now t)) as [b|] eqn:E; [eauto|].
  exfalso; apply (proj2 (le_now_defined d t) H); exact E.
Qed.

(** C6, as stated, fails for an update whose identifier names no stored
    announcement: with a start date equal to the expiration date the call
    ends in status 404 (NotFound), not in status 400. *)
Lemma update_of_missing_record_is_not_found :
  Iso.fromisoformat (Str.replace "Z"%char "+00:00" "2099-01-01T00:00:00")
  = Some (mk 2099 1 1 0 0 0 0 None)
  /\ Datetime.ge (mk 2099 1 1 0 0 0 0 None) (mk 2099 1 1 0 0 0 0 None)
     = Some true
  /\ update_announcement (lib := Iso.python) "000000000000000000000001"
       "y" "2099-01-01T00:00:00" (Some "2099-01-01T00:00:00")
       (Some "mrodriguez") school
     = (Raise (HTTPException 404 "Announcement not found"), school)
  /\ status_of
       (update_announcement (lib := Iso.python) "000000000000000000000001"
          "y" "2099-01-01T00:00:00" (Some "2099-01-01T00:00:00")
          (Some "mrodriguez") school)
     <> Some 400.
Proof. repeat split; try (vm_compute; reflexivity); discriminate. Qed.

(** C6, amended.  For a caller who names a teacher, a start date that is
    supplied (not empty) and parses, and an expiration date that parses,
    such that Python orders the start date at or after the expiration date
    (equal included): create ends in an [HTTPException] of status 400
    whenever the expiration date carries no UTC offset; update ends in
    status 400 unless its identifier is well formed and names no stored
    announcement, in which case it ends in status 404.  The database is
    left as it was in every case. *)
Theorem start_not_before_expiration_rejected :
  forall (lib : Library) (s : db) (cred : option string)
         (announcement_id message expiration_date start : string)
         (t_check t_created : clock) (start_dt exp_date : datetime),
    known_teacher cred s ->
    Str.truthy start = true ->
    fromisoformat (Str.replace "Z"%char "+00:00" start) = Some start_dt ->
    fromisoformat (Str.replace "Z"%char "+00:00" expiration_date)
    = Some exp_date ->
    Datetime.ge start_dt exp_date = Some true ->
    (tzinfo exp_date = None ->
     exists detail,
       create_announcement message expiration_date (Some start) cred
         t_check t_created s
       = (Raise (HTTPException 400 detail), s))
    /\ ((exists detail,
            update_announcement announcement_id message expiration_date
              (Some start) cred s
            = (Raise (HTTPException 400 detail), s))
        \/ (exists obj_id,
               Bson.parse announcement_id = Some obj_id
               /\ find_one (q_id obj_id) (announcements_collection s) = None
               /\ update_announcement announcement_id message expiration_date
                    (Some start) cred s
                  = (Raise (HTTPException 404 "Announcement not found"), s))).
Proof.
  intros lib s cred announcement_id message expiration_date start
         t_check t_created start_dt exp_date Hk Hs Hps Hpe Hge.
  split.
  - intros Hnaive.
    unfold create_announcement; pass_gate Hk.
    destruct (negb (Str.truthy message) || _); [eexists; reflexivity|].
    rewrite Hpe, (parse_start_date_parsed start start_dt s Hs Hps).
    destruct (le_now_naive exp_date t_check Hnaive) as [past Hpast].
    rewrite Hpast; simpl.
    destruct past; [eexists; reflexivity|].
    rewrite Hge; simpl.
    eexists; reflexivity.
  - unfold update_announcement; pass_gate Hk.
    destruct (Bson.parse announcement_id) as [obj_id|];
      [|left; eexists; reflexivity].
    destruct (find_one (q_id obj_id) (announcements_collection s)) eqn:Hfind;
      [left | right; exists obj_id; auto].
    destruct (negb (Str.truthy message) || _); [eexists; reflexivity|].
    rewrite Hpe, (parse_start_date_parsed start start_dt s Hs Hps).
    rewrite Hge; simpl.
    eexists; reflexivity.
Qed.

Lemma mrodriguez_known : forall docs,
  known_teacher (Some "mrodriguez") (mk_db docs [mk_teacher "mrodriguez"]).
Proof.
  intros docs.
  exists "mrodriguez", (mk_teacher "mrodriguez"); repeat split; reflexivity.
Qed.

Lemma start_not_before_expiration_rejected_witness :
  (exists detail,
     create_announcement (lib := Iso.python) "Exam tomorrow"
       "2099-01-01T00:00:00" (Some "2099-01-01T00:00:00")
       (Some "mrodriguez")
       (at_clock 2026 11 3 9 0 0 0) (at_clock 2026 11 3 9 0 0 1)
       school_with_exam
     = (Raise (HTTPException 400 detail), school_with_exam))
  /\ ((exists detail,
         update_announcement (lib := Iso.python) "000000000000000000000001"
           "Exam tomorrow" "2099-01-01T00:00:00"
           (Some "2099-01-01T00:00:00") (Some "mrodriguez") school_with_exam
         = (Raise (HTTPException 400 detail), school_with_exam))
      \/ (exists obj_id,
            Bson.parse "000000000000000000000001" = Some obj_id
            /\ find_one (q_id obj_id)
                 (announcements_collection school_with_exam) = None
            /\ update_announcement (lib := Iso.python)
                 "000000000000000000000001" "Exam tomorrow"
                 "2099-01-01T00:00:00" (Some "2099-01-01T00:00:00")
                 (Some "mrodriguez") school_with_exam
               = (Raise (HTTPException 404 "Announcement not found"),
                  school_with_exam))).
Proof.
  destruct (start_not_before_expiration_rejected Iso.python school_with_exam
              (Some "mrodriguez") "000000000000000000000001"
              "Exam tomorrow" "2099-01-01T00:00:00" "2099-01-01T00:00:00"
              (at_clock 2026 11 3 9 0 0 0) (at_clock 2026 11 3 9 0 0 1)
              (mk 2099 1 1 0 0 0 0 None) (mk 2099 1 1 0 0 0 0 None)
              (mrodriguez_known _) eq_refl eq_refl eq_refl eq_refl)
    as [Hc Hu].
  split; [exact (Hc eq_refl) | exact Hu].
Defined.

(** * The future check of [create_announcement] *)

Section FutureCheck.
Context {lib : Library}.
Variables (s : db) (cred : option string).
Variables (message expiration_date : string) (start_date : option string).
Variables (t_check t_created : clock) (exp_date : datetime).
Hypothesis Hknown : known_teacher cred s.
Hypothesis Hexp :
  fromisoformat (Str.replace "Z"%char "+00:00" expiration_date)
  = Some exp_date.

(** Once the message, both dates and the credential are accepted, an
    expiration date at or before the clock is refused by name. *)
Lemma create_refuses_expiration_at_or_before_now : forall start_dt,
  Str.strip message <> EmptyString ->
  parse_start_date start_date s = (Return start_dt, s) ->
  Datetime.le exp_date (Datetime.now t_check) = Some true ->
  create_announcement message expiration_date start_date cred
    t_check t_created s
  = (Raise expiration_not_in_future, s).
Proof.
  intros start_dt Hm Hsd Hle.
  apply message_test_passes_iff in Hm.
  unfold create_announcement; pass_gate Hknown.
  rewrite Hm, Hexp, Hsd, Hle; reflexivity.
Qed.

(** Whatever the message and the start date are, an expiration date that
    Python orders at or before the clock makes create end in status 400
    with the database as it was. *)
Lemma create_rejects_expiration_at_or_before_now :
  Datetime.le exp_date (Datetime.now t_check) = Some true ->
  exists detail,
    create_announcement message expiration_date start_date cred
      t_check t_created s
    = (Raise (HTTPException 400 detail), s).
Proof.
  intros Hle.
  unfold create_announcement; pass_gate Hknown.
  destruct (negb (Str.truthy message) || _); [eexists; reflexivity|].
  rewrite Hexp.
  destruct (parse_start_date_cases start_date s) as [[o Ho] | Hr];
    [rewrite Ho, Hle | rewrite Hr]; eexists; reflexivity.
Qed.

(** An expiration date with a UTC offset, which is what a trailing "Z"
    becomes, cannot be ordered against the naive clock: once the message,
    both dates and the credential are accepted, create raises [TypeError]
    and writes nothing. *)
Lemma create_with_offset_raises_TypeError : forall start_dt off,
  Str.strip message <> EmptyString ->
  parse_start_date start_date s = (Return start_dt, s) ->
  tzinfo exp_date = Some off ->
  create_announcement message expiration_date start_date cred
    t_check t_created s
  = (Raise naive_aware_TypeError, s).
Proof.
  intros start_dt off Hm Hsd Hoff.
  apply message_test_passes_iff in Hm.
  assert (Hle : Datetime.le exp_date (Datetime.now t_check) = None).
  { unfold Datetime.le, cmp; rewrite Hoff, now_naive; reflexivity. }
  unfold create_announcement; pass_gate Hknown.
  rewrite Hm, Hexp, Hsd, Hle; reflexivity.
Qed.

End FutureCheck.

(** C2, evaluated on the code.  The scenario of the claim, for every clock
    and every stored collection: the expiration date "2099-01-01T00:00:00Z"
    is read as a date with offset zero, the comparison with the naive clock
    raises [TypeError], and nothing is inserted. *)
Theorem create_exam_tomorrow_raises_TypeError :
  forall (docs : list document) (t_check t_created : clock),
    Iso.fromisoformat (Str.replace "Z"%char "+00:00" "2099-01-01T00:00:00Z")
    = Some (mk 2099 1 1 0 0 0 0 (Some 0))
    /\ create_announcement (lib := Iso.python) "Exam tomorrow"
         "2099-01-01T00:00:00Z" None (Some "mrodriguez") t_check t_created
         (mk_db docs [mk_teacher "mrodriguez"])
       = (Raise naive_aware_TypeError, mk_db docs [mk_teacher "mrodriguez"]).
Proof.
  intros docs t_check t_created; split; [reflexivity|].
  eapply (create_with_offset_raises_TypeError (lib := Iso.python));
    [apply mrodriguez_known | reflexivity | discriminate
    | apply parse_start_date_absent | reflexivity].
Qed.

(** C5, evaluated on the code.  The expiration date "2000-01-01T00:00:00Z"
    denotes an instant before the clock reading of 3 November 2026, yet
    create ends in [TypeError] instead of an [HTTPException] of status 400;
    nothing is inserted. *)
Theorem create_past_Z_expiration_raises_TypeError :
  forall (docs : list document) (t_created : clock),
    Iso.fromisoformat (Str.replace "Z"%char "+00:00" "2000-01-01T00:00:00Z")
    = Some (mk 2000 1 1 0 0 0 0 (Some 0))
    /\ utc_micros (mk 2000 1 1 0 0 0 0 (Some 0))
       < utc_micros (Datetime.now (at_clock 2026 11 3 9 0 0 0))
    /\ create_announcement (lib := Iso.python) "x"
         "2000-01-01T00:00:00Z" None (Some "mrodriguez")
         (at_clock 2026 11 3 9 0 0 0) t_created
         (mk_db docs [mk_teacher "mrodriguez"])
       = (Raise naive_aware_TypeError, mk_db docs [mk_teacher "mrodriguez"]).
Proof.
  intros docs t_created; split; [reflexivity | split; [reflexivity|]].
  eapply (create_with_offset_raises_TypeError (lib := Iso.python));
    [apply mrodriguez_known | reflexivity | discriminate
    | apply parse_start_date_absent | reflexivity].
Qed.

(** * The record store *)

Lemma apply_set_keeps_id_and_created_at : forall u d,
  _id (apply_set u d) = _id d /\ created_at (apply_set u d) = created_at d.
Proof. intros; split; reflexivity. Qed.

(** Reading back after [update_one] yields the first match with the three
    fields replaced. *)
Lemma find_one_update_one : forall oid u c old,
  find_one (q_id oid) c = Some old ->
  find_one (q_id oid) (update_one (q_id oid) u c) = Some (apply_set u old).
Proof.
  unfold find_one; intros oid u; induction c as [|d c IH]; simpl; intros old H.
  - discriminate.
  - destruct (N.eqb (_id d) oid) eqn:E; simpl; rewrite E.
    + inversion H; subst; reflexivity.
    + auto.
Qed.

(** [update_one] changes the first document carrying the identifier and no
    other. *)
Lemma update_one_frame : forall oid u c old,
  find_one (q_id oid) c = Some old ->
  exists before after,
    c = (before ++ old :: after)%list
    /\ Forall (fun d => _id d <> oid) before
    /\ _id old = oid
    /\ update_one (q_id oid) u c = (before ++ apply_set u old :: after)%list.
Proof.
  unfold find_one; intros oid u; induction c as [|d c IH]; simpl; intros old H.
  - discriminate.
  - destruct (N.eqb (_id d) oid) eqn:E.
    + inversion H; subst.
      exists [], c; repeat split; auto.
      apply N.eqb_eq; assumption.
    + destruct (IH old H) as (before & after & Hc & Hb & Hid & Hu).
      exists (d :: before), after; subst c; simpl; rewrite Hu.
      repeat split; auto.
      constructor; [apply N.eqb_neq; assumption | assumption].
Qed.

(** * What a run of create or update can end in *)

Section Outcomes.
Context {lib : Library}.

(** Either create raises and the database is untouched, or every check
    passed and exactly one document, built from the checked values, was
    appended. *)
Lemma create_outcome :
  forall message expiration_date start_date cred t_check t_created s r s',
    create_announcement message expiration_date start_date cred
      t_check t_created s = (r, s') ->
    (exists x, r = Raise x /\ s' = s)
    \/ (exists start_dt exp_date,
           known_teacher cred s
           /\ Str.strip message <> EmptyString
           /\ fromisoformat (Str.replace "Z"%char "+00:00" expiration_date)
              = Some exp_date
           /\ parse_start_date start_date s = (Return start_dt, s)
           /\ Datetime.le exp_date (Datetime.now t_check) = Some false
           /\ (forall x, start_dt = Some x ->
                         Datetime.ge x exp_date = Some false)
           /\ r = Return (to_json
                    (mk_document (fresh_id (announcements_collection s))
                       (Str.strip message) start_dt exp_date
                       (Datetime.now t_created)))
           /\ s' = mk_db
                     (announcements_collection s ++
                      [mk_document (fresh_id (announcements_collection s))
                         (Str.strip message) start_dt exp_date
                         (Datetime.now t_created)])%list
                     (teachers_collection s)).
Proof.
  intros message expiration_date start_date cred t_check t_created s r s' H.
  unfold create_announcement in H.
  destruct cred as [u|]; [|early_exit H].
  destruct (Str.truthy u) eqn:Hu; simpl in H; [|early_exit H].
  run_handler.
  destruct (find_teacher u (teachers_collection s)) as [teacher|] eqn:Hf;
    [|early_exit H].
  destruct (negb (Str.truthy message) || _) eqn:Hm; [early_exit H|].
  destruct (fromisoformat _) as [exp_date|] eqn:He; [|early_exit H].
  destruct (parse_start_date_cases start_date s) as [[start_dt Hs]|Hs];
    rewrite Hs in H; [|early_exit H].
  destruct (Datetime.le exp_date (Datetime.now t_check)) as [[|]|] eqn:Hle;
    simpl in H; try early_exit H.
  assert (Hlate : forall x, start_dt = Some x ->
                            Datetime.ge x exp_date = Some false
                  \/ exists e, (r, s') = (Raise e, s)).
  { intros x ->.
    destruct (Datetime.ge x exp_date) as [[|]|]; simpl in H;
      [right | left | right]; eauto. }
  destruct start_dt as [x|].
  - destruct (Hlate x eq_refl) as [Hge | [e He']]; [|early_exit He'].
    rewrite Hge in H; simpl in H.
    inversion H; subst; right.
    exists (Some x), exp_date.
    repeat split; auto using message_test_passes.
    + exists u, teacher; auto.
    + intros y Hy; inversion Hy; subst; assumption.
  - simpl in H; inversion H; subst; right.
    exists None, exp_date.
    repeat split; auto using message_test_passes.
    + exists u, teacher; auto.
    + discriminate.
Qed.

(** Either update raises and the database is untouched, or every check
    passed, the first document carrying the identifier received the three
    checked values, and the answer is that document read back. *)
Lemma update_outcome :
  forall announcement_id message expiration_date start_date cred s r s',
    update_announcement announcement_id message expiration_date start_date
      cred s = (r, s') ->
    (exists x, r = Raise x /\ s' = s)
    \/ (exists obj_id old start_dt exp_date,
           known_teacher cred s
           /\ Bson.parse announcement_id = Some obj_id
           /\ find_one (q_id obj_id) (announcements_collection s) = Some old
           /\ Str.strip message <> EmptyString
           /\ fromisoformat (Str.replace "Z"%char "+00:00" expiration_date)
              = Some exp_date
           /\ parse_start_date start_date s = (Return start_dt, s)
           /\ (forall x, start_dt = Some x ->
                         Datetime.ge x exp_date = Some false)
           /\ s' = mk_db
                     (update_one (q_id obj_id)
                        (mk_update (Str.strip message) start_dt exp_date)
                        (announcements_collection s))
                     (teachers_collection s)
           /\ r = Return (to_json
                    (apply_set
                       (mk_update (Str.strip message) start_dt exp_date)
                       old))).
Proof.
  intros announcement_id message expiration_date start_date cred s r s' H.
  unfold update_announcement in H.
  destruct cred as [u|]; [|early_exit H].
  destruct (Str.truthy u) eqn:Hu; simpl in H; [|early_exit H].
  run_handler.
  destruct (find_teacher u (teachers_collection s)) as [teacher|] eqn:Hf;
    [|early_exit H].
  destruct (Bson.parse announcement_id) as [obj_id|] eqn:Hid;
    [|early_exit H].
  destruct (find_one (q_id obj_id) (announcements_collection s))
    as [old|] eqn:Hold; [|early_exit H].
  destruct (negb (Str.truthy message) || _) eqn:Hm; [early_exit H|].
  destruct (fromisoformat _) as [exp_date|] eqn:He; [|early_exit H].
  destruct (parse_start_date_cases start_date s) as [[start_dt Hs]|Hs];
    rewrite Hs in H; [|early_exit H].
  assert (Hlate : forall x, start_dt = Some x ->
                            Datetime.ge x exp_date = Some false
                  \/ exists e, (r, s') = (Raise e, s)).
  { intros x ->.
    destruct (Datetime.ge x exp_date) as [[|]|]; simpl in H;
      [right | left | right]; eauto. }
  destruct start_dt as [x|].
  - destruct (Hlate x eq_refl) as [Hge | [e He']]; [|early_exit He'].
    rewrite Hge in H; simpl in H.
    rewrite (find_one_update_one _ _ _ _ Hold) in H.
    inversion H; subst; right.
    exists obj_id, old, (Some x), exp_date.
    repeat split; auto using message_test_passes.
    + exists u, teacher; auto.
    + intros y Hy; inversion Hy; subst; assumption.
  - simpl in H.
    rewrite (find_one_update_one _ _ _ _ Hold) in H.
    inversion H; subst; right.
    exists obj_id, old, None, exp_date.
    repeat split; auto using message_test_passes.
    + exists u, teacher; auto.
    + discriminate.
Qed.

End Outcomes.

(** * Update: success, frame and the missing future check *)

Section Update.
Context {lib : Library}.

Lemma start_date_accepted_parse : forall start_date exp_date start_dt s,
  start_date_accepted start_date exp_date start_dt ->
  parse_start_date start_date s = (Return start_dt, s)
  /\ (forall x, start_dt = Some x -> Datetime.ge x exp_date = Some false).
Proof.
  intros start_date exp_date start_dt s
         [[Ht ->] | (str & sd & -> & Ht & Hp & Hlt & ->)].
  - split; [|discriminate].
    destruct start_date as [[|c r]|]; [reflexivity | discriminate | reflexivity].
  - split; [apply parse_start_date_parsed; assumption|].
    intros x Hx; inversion Hx; subst; apply lt_true_ge; assumption.
Qed.

Lemma update_succeeds :
  forall s cred announcement_id obj_id old message expiration_date
         start_date exp_date start_dt,
    known_teacher cred s ->
    Bson.parse announcement_id = Some obj_id ->
    find_one (q_id obj_id) (announcements_collection s) = Some old ->
    Str.strip message <> EmptyString ->
    fromisoformat (Str.replace "Z"%char "+00:00" expiration_date)
    = Some exp_date ->
    parse_start_date start_date s = (Return start_dt, s) ->
    (forall x, start_dt = Some x -> Datetime.ge x exp_date = Some false) ->
    update_announcement announcement_id message expiration_date start_date
      cred s
    = (Return (to_json
                 (apply_set (mk_update (Str.strip message) start_dt exp_date)
                    old)),
       mk_db (update_one (q_id obj_id)
                (mk_update (Str.strip message) start_dt exp_date)
                (announcements_collection s))
             (teachers_collection s)).
Proof.
  intros s cred announcement_id obj_id old message expiration_date
         start_date exp_date start_dt Hk Hid Hold Hm He Hs Hlate.
  apply message_test_passes_iff in Hm.
  unfold update_announcement; pass_gate Hk.
  rewrite Hid, Hold, Hm, He, Hs.
  destruct start_dt as [x|]; [rewrite (Hlate x eq_refl)|]; simpl;
    rewrite (find_one_update_one _ _ _ _ Hold); reflexivity.
Qed.

(** Every [HTTPException] of status 400 that create raises, the one of the
    future check excepted, update raises as well on a stored record. *)
Lemma update_applies_the_other_rules :
  forall s cred announcement_id obj_id old message expiration_date
         start_date t_check t_created detail s',
    known_teacher cred s ->
    Bson.parse announcement_id = Some obj_id ->
    find_one (q_id obj_id) (announcements_collection s) = Some old ->
    create_announcement message expiration_date start_date cred
      t_check t_created s = (Raise (HTTPException 400 detail), s') ->
    HTTPException 400 detail <> expiration_not_in_future ->
    update_announcement announcement_id message expiration_date start_date
      cred s = (Raise (HTTPException 400 detail), s).
Proof.
  intros s cred announcement_id obj_id old message expiration_date
         start_date t_check t_created detail s' Hk Hid Hold H Hneq.
  unfold create_announcement in H; unfold update_announcement.
  destruct Hk as (u & teacher & -> & Ht & Hf).
  rewrite Ht in *; run_handler; rewrite Hf in *; rewrite Hid, Hold.
  destruct (negb (Str.truthy message) || _);
    [inversion H; reflexivity|].
  destruct (fromisoformat _) as [exp_date|]; [|inversion H; reflexivity].
  destruct (parse_start_date_cases start_date s) as [[start_dt Hs]|Hs];
    rewrite Hs in *; [|inversion H; reflexivity].
  destruct (Datetime.le exp_date (Datetime.now t_check)) as [[|]|];
    simpl in H; [inversion H; subst; exfalso; apply Hneq; reflexivity
                | | discriminate H].
  destruct start_dt as [x|]; simpl in H; [|discriminate H].
  destruct (Datetime.ge x exp_date) as [[|]|]; simpl in H |- *;
    [inversion H; reflexivity | discriminate H | discriminate H].
Qed.

End Update.

(** C3.  For a caller who names a teacher and an identifier that names a
    stored announcement: (i) update succeeds whenever the message is not
    blank, the expiration date parses and the start date passes the rules
    of create, whatever the expiration date is and so also when it lies in
    the past, where create, at a clock the expiration date is not after,
    raises "Expiration date must be in the future"; (ii) every other
    rule of create applies: whenever create raises an [HTTPException] of
    status 400 other than that of the future check, update raises the
    same one and writes nothing. *)
Theorem update_skips_the_future_check :
  forall (lib : Library) (s : db) (cred : option string)
         (announcement_id message expiration_date : string)
         (start_date : option string) (obj_id : Bson.ObjectId)
         (old : document),
    known_teacher cred s ->
    Bson.parse announcement_id = Some obj_id ->
    find_one (q_id obj_id) (announcements_collection s) = Some old ->
    (forall exp_date start_dt,
        Str.strip message <> EmptyString ->
        fromisoformat (Str.replace "Z"%char "+00:00" expiration_date)
        = Some exp_date ->
        start_date_accepted start_date exp_date start_dt ->
        update_announcement announcement_id message expiration_date
          start_date cred s
        = (Return (to_json
                     (apply_set
                        (mk_update (Str.strip message) start_dt exp_date)
                        old)),
           mk_db (update_one (q_id obj_id)
                    (mk_update (Str.strip message) start_dt exp_date)
                    (announcements_collection s))
                 (teachers_collection s))
        /\ forall t_check t_created,
             Datetime.le exp_date (Datetime.now t_check) = Some true ->
             create_announcement message expiration_date start_date cred
               t_check t_created s
             = (Raise expiration_not_in_future, s))
    /\ (forall t_check t_created detail s',
           create_announcement message expiration_date start_date cred
             t_check t_created s = (Raise (HTTPException 400 detail), s') ->
           HTTPException 400 detail <> expiration_not_in_future ->
           update_announcement announcement_id message expiration_date
             start_date cred s = (Raise (HTTPException 400 detail), s)).
Proof.
  intros lib s cred announcement_id message expiration_date start_date
         obj_id old Hk Hid Hold.
  split.
  - intros exp_date start_dt Hm He Hsd.
    destruct (start_date_accepted_parse _ _ _ s Hsd) as [Hs Hlate].
    split.
    + eapply update_succeeds; eauto.
    + intros t_check t_created Hle.
      eapply create_refuses_expiration_at_or_before_now; eauto.
  - intros t_check t_created detail s' H Hneq.
    eapply update_applies_the_other_rules; eauto.
Qed.

(** The scenario of the specification: on a stored record, message "y" and
    expiration date "2000-01-01T00:00:00Z". *)
Lemma update_skips_the_future_check_witness :
  known_teacher (Some "mrodriguez") school_with_exam
  /\ Bson.parse "000000000000000000000001" = Some 1%N
  /\ exists r s',
       update_announcement (lib := Iso.python) "000000000000000000000001"
         "y" "2000-01-01T00:00:00Z" None (Some "mrodriguez") school_with_exam
       = (Return r, s')
       /\ message_str r = "y"
       /\ start_date_iso r = None
       /\ map Mongo.expiration_date (announcements_collection s')
          = [mk 2000 1 1 0 0 0 0 (Some 0)].
Proof.
  split; [apply mrodriguez_known | split; [reflexivity|]].
  assert (Hm : Str.strip "y" <> EmptyString) by discriminate.
  assert (Hsd : start_date_accepted (lib := Iso.python) None
                  (mk 2000 1 1 0 0 0 0 (Some 0)) None)
    by (left; split; reflexivity).
  eexists; eexists; split.
  - exact (proj1 (proj1 (update_skips_the_future_check Iso.python
             school_with_exam (Some "mrodriguez") "000000000000000000000001"
             "y" "2000-01-01T00:00:00Z" None 1%N
             (mk_document 1%N "Exam tomorrow" None
                (mk 2099 1 1 0 0 0 0 None) (mk 2026 11 3 9 0 0 1 None))
             (mrodriguez_known _) eq_refl eq_refl)
           (mk 2000 1 1 0 0 0 0 (Some 0)) None Hm eq_refl Hsd)).
  - repeat split; reflexivity.
Defined.

(** C7.  Whenever update succeeds, the identifier names a stored
    announcement [old]; the collection afterwards is the one before with
    that one document replaced by [updated], every other document and the
    teachers being untouched; [updated] has the identifier and the
    [created_at] of [old], the trimmed message, the parsed expiration date
    and the parsed start date (or none); and the answer is the conversion
    of [updated] as read back from the collection. *)
Theorem update_replaces_three_fields_only :
  forall (lib : Library) (s s' : db) (cred : option string)
         (announcement_id message expiration_date : string)
         (start_date : option string) (r : announcement),
    update_announcement announcement_id message expiration_date start_date
      cred s = (Return r, s') ->
    exists obj_id old updated before after,
      Bson.parse announcement_id = Some obj_id
      /\ announcements_collection s = (before ++ old :: after)%list
      /\ Forall (fun d => _id d <> obj_id) before
      /\ _id old = obj_id
      /\ announcements_collection s' = (before ++ updated :: after)%list
      /\ teachers_collection s' = teachers_collection s
      /\ _id updated = _id old
      /\ created_at updated = created_at old
      /\ Mongo.message updated = Str.strip message
      /\ fromisoformat (Str.replace "Z"%char "+00:00" expiration_date)
         = Some (Mongo.expiration_date updated)
      /\ parse_start_date start_date s
         = (Return (Mongo.start_date updated), s)
      /\ find_one (q_id obj_id) (announcements_collection s') = Some updated
      /\ r = to_json updated.
Proof.
  intros lib s s' cred announcement_id message expiration_date start_date r H.
  destruct (update_outcome _ _ _ _ _ _ _ _ H)
    as [(x & Hx & _) | (obj_id & old & start_dt & exp_date & _ & Hid & Hold
                        & _ & He & Hs & _ & Hs' & Hr)];
    [discriminate|].
  set (u := mk_update (Str.strip message) start_dt exp_date) in *.
  destruct (update_one_frame obj_id u _ old Hold)
    as (before & after & Hc & Hb & Hio & Hu).
  exists obj_id, old, (apply_set u old), before, after.
  inversion Hr; subst r s'; simpl.
  repeat split; auto.
  apply find_one_update_one; assumption.
Qed.

Lemma update_replaces_three_fields_only_witness :
  exists obj_id old updated before after,
    Bson.parse "000000000000000000000001" = Some obj_id
    /\ announcements_collection school_with_exam
       = (before ++ old :: after)%list
    /\ Forall (fun d => _id d <> obj_id) before
    /\ _id old = obj_id
    /\ [mk_document 1%N "y" None (mk 2000 1 1 0 0 0 0 (Some 0))
          (mk 2026 11 3 9 0 0 1 None)]
       = (before ++ updated :: after)%list
    /\ _id updated = _id old
    /\ created_at updated = created_at old.
Proof.
  destruct (update_replaces_three_fields_only Iso.python school_with_exam
              (mk_db [mk_document 1%N "y" None (mk 2000 1 1 0 0 0 0 (Some 0))
                        (mk 2026 11 3 9 0 0 1 None)]
                     [mk_teacher "mrodriguez"])
              (Some "mrodriguez") "000000000000000000000001" "y"
              "2000-01-01T00:00:00Z" None
              (mk_announcement "000000000000000000000001" "y" None
                 "2000-01-01T00:00:00+00:00" "2026-11-03T09:00:00.000001")
              eq_refl)
    as (obj_id & old & updated & before & after & H1 & H2 & H3 & H4 & H5
        & _ & H7 & H8 & _).
  exists obj_id, old, updated, before, after.
  repeat split; assumption.
Defined.

(** * Invariants of the stored records *)

Lemma stripped_message_valid : forall m,
  Str.strip m <> EmptyString ->
  Str.strip m <> EmptyString
  /\ Str.whitespace_only (Str.strip m) = false
  /\ Str.strip (Str.strip m) = Str.strip m.
Proof.
  intros m H; split; [assumption | split; [|apply strip_idempotent]].
  destruct (Str.whitespace_only (Str.strip m)) eqn:E; [|reflexivity].
  apply whitespace_only_strip in E; rewrite strip_idempotent in E.
  contradiction.
Qed.

Lemma checked_values_valid : forall oid m start_dt exp_date created,
  Str.strip m <> EmptyString ->
  (forall x, start_dt = Some x -> Datetime.ge x exp_date = Some false) ->
  valid_document (mk_document oid (Str.strip m) start_dt exp_date created).
Proof.
  intros oid m start_dt exp_date created Hm Hlate.
  destruct (stripped_message_valid m Hm) as (H1 & H2 & H3).
  repeat split; simpl; auto using ge_false_lt.
Qed.

Lemma update_one_valid : forall q u c,
  Forall valid_document c ->
  (forall d, valid_document (apply_set u d)) ->
  Forall valid_document (update_one q u c).
Proof.
  intros q u c Hc Hu; induction Hc as [|d c Hd Hc IH]; simpl; [constructor|].
  destruct (matches q d); constructor; auto.
Qed.

Lemma delete_one_valid : forall q c,
  Forall valid_document c -> Forall valid_document (delete_one q c).
Proof.
  intros q c Hc; induction Hc as [|d c Hd Hc IH]; simpl; [constructor|].
  destruct (matches q d); [assumption | constructor; auto].
Qed.

Section Invariants.
Context {lib : Library}.

Lemma step_valid : forall s s', step s s' -> valid_store s -> valid_store s'.
Proof.
  intros s s' Hstep Hv; destruct Hstep as
    [t s r s' H | cred s r s' H | m e sd cred t1 t2 s r s' H
    | i m e sd cred s r s' H | i cred s r s' H].
  - unfold get_active_announcements in H; run_handler.
    inversion H; subst; assumption.
  - unfold get_all_announcements in H.
    destruct cred as [u|]; [|inversion H; subst; assumption].
    destruct (Str.truthy u); simpl in H; [|inversion H; subst; assumption].
    run_handler.
    destruct (find_teacher u _); inversion H; subst; assumption.
  - destruct (create_outcome _ _ _ _ _ _ _ _ _ H)
      as [(x & _ & ->) | (start_dt & exp_date & _ & Hm & _ & _ & _ & Hlate
                          & _ & ->)];
      [assumption|].
    unfold valid_store; simpl.
    apply Forall_app; split; [assumption|].
    constructor; [|constructor].
    apply checked_values_valid; assumption.
  - destruct (update_outcome _ _ _ _ _ _ _ _ H)
      as [(x & _ & ->) | (obj_id & old & start_dt & exp_date & _ & _ & _
                          & Hm & _ & _ & Hlate & -> & _)];
      [assumption|].
    unfold valid_store; simpl.
    apply update_one_valid; [assumption|].
    intros d; apply checked_values_valid; assumption.
  - unfold delete_announcement in H.
    destruct cred as [u|]; [|inversion H; subst; assumption].
    destruct (Str.truthy u); simpl in H; [|inversion H; subst; assumption].
    run_handler.
    destruct (find_teacher u _); [|inversion H; subst; assumption].
    destruct (Bson.parse i) as [obj_id|]; [|inversion H; subst; assumption].
    destruct (find_one (q_id obj_id) _);
      inversion H; subst; [|assumption].
    unfold valid_store; simpl; apply delete_one_valid; assumption.
Qed.

End Invariants.

(** C4.  Starting from a database whose records satisfy the invariants of
    the data model (the empty one, for instance), every database reached
    by any sequence of calls of the five operations satisfies them: each
    stored message is trimmed, not empty and not whitespace only, and each
    stored start date is ordered before the expiration date of its record.
    In particular this holds of the record a successful create appends and
    of the record a successful update rewrites. *)
Theorem reachable_stores_are_valid :
  forall (lib : Library) (s0 s : db),
    valid_store s0 -> reachable s0 s -> valid_store s.
Proof.
  intros lib s0 s H0 Hr; induction Hr as [|s s' _ IH Hstep];
    [assumption | eapply step_valid; eauto].
Qed.

Lemma reachable_stores_are_valid_witness :
  valid_store school
  /\ reachable (lib := Iso.python) school school_with_exam
  /\ valid_store school_with_exam.
Proof.
  assert (H0 : valid_store school) by constructor.
  assert (Hr : reachable (lib := Iso.python) school school_with_exam).
  { eapply reachable_step; [apply reachable_start|].
    eapply (step_create "  Exam tomorrow " "2099-01-01T00:00:00" None
              (Some "mrodriguez")
              (at_clock 2026 11 3 9 0 0 0) (at_clock 2026 11 3 9 0 0 1)).
    vm_compute; reflexivity. }
  split; [exact H0 | split; [exact Hr|]].
  exact (reachable_stores_are_valid Iso.python school school_with_exam H0 Hr).
Defined.

(** * More on the record store *)

Lemma find_one_none : forall oid c,
  find_one (q_id oid) c = None <-> absent_id oid c.
Proof.
  unfold find_one, absent_id; intros oid; induction c as [|d c IH]; simpl.
  - split; [constructor | reflexivity].
  - destruct (N.eqb (_id d) oid) eqn:E.
    + apply N.eqb_eq in E; split; [discriminate|].
      intros H; inversion H; subst; contradiction.
    + apply N.eqb_neq in E; rewrite IH; split.
      * intros H; constructor; assumption.
      * intros H; inversion H; assumption.
Qed.

Lemma absent_id_not_in : forall oid c,
  absent_id oid c <-> ~ In oid (map _id c).
Proof.
  unfold absent_id; intros oid c; rewrite Forall_forall, in_map_iff; split.
  - intros H (d & Hd & Hin); exact (H d Hin Hd).
  - intros H d Hin Hd; apply H; eauto.
Qed.

Lemma find_one_some : forall oid c d,
  find_one (q_id oid) c = Some d -> In d c /\ _id d = oid.
Proof.
  unfold find_one; intros oid c d H.
  apply find_some in H as [Hin Hm]; simpl in Hm.
  split; [assumption | apply N.eqb_eq; assumption].
Qed.

Lemma fresh_id_above : forall c d,
  In d c -> (_id d < fresh_id c)%N.
Proof.
  unfold fresh_id; induction c as [|x c IH]; simpl; intros d H; [contradiction|].
  destruct H as [-> | H]; [lia|].
  specialize (IH d H); lia.
Qed.

Lemma fresh_id_absent : forall c, absent_id (fresh_id c) c.
Proof.
  intros c; apply Forall_forall; intros d Hd E.
  apply fresh_id_above in Hd; lia.
Qed.

Lemma find_one_appended : forall oid c d,
  absent_id oid c -> _id d = oid ->
  find_one (q_id oid) (c ++ [d])%list = Some d.
Proof.
  unfold find_one; intros oid c d Ha Hd.
  induction Ha as [|x c Hx Ha IH]; simpl.
  - rewrite Hd, N.eqb_refl; reflexivity.
  - apply N.eqb_neq in Hx; rewrite Hx; assumption.
Qed.

Lemma delete_one_appended : forall oid c d,
  absent_id oid c -> _id d = oid ->
  delete_one (q_id oid) (c ++ [d])%list = c.
Proof.
  intros oid c d Ha Hd.
  induction Ha as [|x c Hx Ha IH]; simpl.
  - rewrite Hd, N.eqb_refl; reflexivity.
  - apply N.eqb_neq in Hx; rewrite Hx, IH; reflexivity.
Qed.

(** [delete_one] removes the first document carrying the identifier and no
    other. *)
Lemma delete_one_frame : forall oid c old,
  find_one (q_id oid) c = Some old ->
  exists before after,
    c = (before ++ old :: after)%list
    /\ absent_id oid before
    /\ _id old = oid
    /\ delete_one (q_id oid) c = (before ++ after)%list.
Proof.
  unfold find_one, absent_id; intros oid; induction c as [|d c IH]; simpl;
    intros old H.
  - discriminate.
  - destruct (N.eqb (_id d) oid) eqn:E.
    + inversion H; subst.
      exists [], c; repeat split; auto.
      apply N.eqb_eq; assumption.
    + destruct (IH old H) as (before & after & Hc & Hb & Hid & Hu).
      exists (d :: before), after; subst c; simpl; rewrite Hu.
      repeat split; auto.
      constructor; [apply N.eqb_neq; assumption | assumption].
Qed.

Lemma update_one_ids : forall q u c,
  map _id (update_one q u c) = map _id c.
Proof.
  intros q u; induction c as [|d c IH]; simpl; [reflexivity|].
  destruct (matches q d); simpl; [reflexivity | rewrite IH; reflexivity].
Qed.

Lemma delete_one_incl : forall q c d,
  In d (delete_one q c) -> In d c.
Proof.
  intros q; induction c as [|x c IH]; simpl; intros d H; [assumption|].
  destruct (matches q x); [right; assumption|].
  destruct H; [left; assumption | right; auto].
Qed.

Lemma delete_one_unique : forall q c,
  NoDup (map _id c) -> NoDup (map _id (delete_one q c)).
Proof.
  intros q; induction c as [|x c IH]; simpl; intros H; [assumption|].
  inversion H as [|? ? Hx Hc]; subst.
  destruct (matches q x); [assumption|].
  simpl; constructor; [|auto].
  rewrite in_map_iff; intros (d & Hd & Hin).
  apply Hx; rewrite in_map_iff; exists d; split;
    [assumption | eapply delete_one_incl; eassumption].
Qed.

(** With unique identifiers, nothing carries the identifier once
    [delete_one] has run. *)
Lemma delete_one_absent : forall oid c,
  NoDup (map _id c) -> absent_id oid (delete_one (q_id oid) c).
Proof.
  intros oid; induction c as [|x c IH]; simpl; intros H; [constructor|].
  inversion H as [|? ? Hx Hc]; subst.
  destruct (N.eqb (_id x) oid) eqn:E.
  - apply N.eqb_eq in E; subst oid.
    apply absent_id_not_in; assumption.
  - apply Forall_cons; [apply N.eqb_neq; assumption | apply IH; assumption].
Qed.

(** * Listing and deleting *)

Lemma find_all : forall c, find q_all c = c.
Proof.
  unfold find; induction c as [|d c IH]; simpl; [reflexivity|].
  f_equal; exact IH.
Qed.

Section ListDelete.
Context {lib : Library}.

Lemma get_all_known : forall cred s,
  known_teacher cred s ->
  get_all_announcements cred s
  = (Return (map to_json
               (sort_created_at_desc (announcements_collection s))), s).
Proof.
  intros cred s Hk; unfold get_all_announcements; pass_gate Hk.
  rewrite find_all; reflexivity.
Qed.

Lemma get_all_outcome : forall cred s r s',
  get_all_announcements cred s = (r, s') ->
  s' = s /\ ((exists x, r = Raise x) \/ known_teacher cred s).
Proof.
  intros cred s r s' H; unfold get_all_announcements in H.
  destruct cred as [u|]; [|inversion H; eauto].
  destruct (Str.truthy u) eqn:Hu; simpl in H; [|inversion H; eauto].
  run_handler.
  destruct (find_teacher u (teachers_collection s)) as [t|] eqn:Hf;
    inversion H; subst; [|eauto].
  split; [reflexivity | right; exists u, t; auto].
Qed.

Lemma delete_succeeds : forall announcement_id cred s obj_id old,
  known_teacher cred s ->
  Bson.parse announcement_id = Some obj_id ->
  find_one (q_id obj_id) (announcements_collection s) = Some old ->
  delete_announcement announcement_id cred s
  = (Return "Announcement deleted successfully",
     mk_db (delete_one (q_id obj_id) (announcements_collection s))
           (teachers_collection s)).
Proof.
  intros announcement_id cred s obj_id old Hk Hid Hold.
  unfold delete_announcement; pass_gate Hk.
  rewrite Hid, Hold; reflexivity.
Qed.


Lemma delete_missing_record : forall announcement_id cred s obj_id,
  known_teacher cred s ->
  Bson.parse announcement_id = Some obj_id ->
  absent_id obj_id (announcements_collection s) ->
  delete_announcement announcement_id cred s
  = (Raise announcement_not_found, s).
Proof.
  intros announcement_id cred s obj_id Hk Hid Ha.
  apply find_one_none in Ha.
  unfold delete_announcement; pass_gate Hk.
  rewrite Hid, Ha; reflexivity.
Qed.


Lemma update_missing_record : forall announcement_id m e sd cred s obj_id,
  known_teacher cred s ->
  Bson.parse announcement_id = Some obj_id ->
  absent_id obj_id (announcements_collection s) ->
  update_announcement announcement_id m e sd cred s
  = (Raise announcement_not_found, s).
Proof.
  intros announcement_id m e sd cred s obj_id Hk Hid Ha.
  apply find_one_none in Ha.
  unfold update_announcement; pass_gate Hk.
  rewrite Hid, Ha; reflexivity.
Qed.

(** Either delete raises and the database is untouched, or the caller is a
    teacher, the identifier names a stored announcement, and the first
    document carrying it is gone. *)
Lemma delete_outcome : forall announcement_id cred s r s',
  delete_announcement announcement_id cred s = (r, s') ->
  (exists x, r = Raise x /\ s' = s)
  \/ (exists obj_id old,
         known_teacher cred s
         /\ Bson.parse announcement_id = Some obj_id
         /\ find_one (q_id obj_id) (announcements_collection s) = Some old
         /\ r = Return "Announcement deleted successfully"
         /\ s' = mk_db (delete_one (q_id obj_id) (announcements_collection s))
                       (teachers_collection s)).
Proof.
  intros announcement_id cred s r s' H; unfold delete_announcement in H.
  destruct cred as [u|]; [|early_exit H].
  destruct (Str.truthy u) eqn:Hu; simpl in H; [|early_exit H].
  run_handler.
  destruct (find_teacher u (teachers_collection s)) as [t|] eqn:Hf;
    [|early_exit H].
  destruct (Bson.parse announcement_id) as [obj_id|] eqn:Hid;
    [|early_exit H].
  destruct (find_one (q_id obj_id) (announcements_collection s))
    as [old|] eqn:Hold; [|early_exit H].
  inversion H; subst; right.
  exists obj_id, old; repeat split; auto.
  exists u, t; auto.
Qed.

End ListDelete.

(** X1.  For a caller who names a teacher, [get_all_announcements] answers
    with the conversion of a rearrangement of the whole collection, active
    or not, ordered by [created_at], latest first, and leaves the database
    as it was. *)
Theorem get_all_announcements_lists_everything :
  forall (lib : Library) (s : db) (cred : option string),
    known_teacher cred s ->
    exists listed : list document,
      get_all_announcements cred s = (Return (map to_json listed), s)
      /\ Permutation listed (announcements_collection s)
      /\ StronglySorted newest_first listed.
Proof.
  intros lib s cred Hk.
  exists (sort_created_at_desc (announcements_collection s)).
  split; [apply get_all_known; assumption|].
  split; [apply Permutation_sym, sort_created_at_desc_perm
         | apply sort_created_at_desc_sorted].
Qed.

Lemma get_all_announcements_lists_everything_witness :
  known_teacher (Some "mrodriguez") school_with_exam
  /\ exists listed,
       get_all_announcements (lib := Iso.python) (Some "mrodriguez")
         school_with_exam
       = (Return (map (to_json (lib := Iso.python)) listed), school_with_exam)
       /\ Permutation listed (announcements_collection school_with_exam)
       /\ StronglySorted newest_first listed.
Proof.
  split; [apply mrodriguez_known|].
  exact (get_all_announcements_lists_everything Iso.python school_with_exam
           (Some "mrodriguez") (mrodriguez_known _)).
Defined.

(** X2.  [delete_announcement] succeeds exactly when the caller names a
    teacher and the identifier is well formed and names a stored
    announcement. *)
Theorem delete_succeeds_exactly_when :
  forall (announcement_id : string) (cred : option string) (s : db),
    (exists r s', delete_announcement announcement_id cred s = (Return r, s'))
    <-> (known_teacher cred s
         /\ exists obj_id old,
              Bson.parse announcement_id = Some obj_id
              /\ find_one (q_id obj_id) (announcements_collection s)
                 = Some old).
Proof.
  intros announcement_id cred s; split.
  - intros (r & s' & H).
    destruct (delete_outcome _ _ _ _ _ H)
      as [(x & Hx & _) | (obj_id & old & Hk & Hid & Hold & _)];
      [discriminate | eauto].
  - intros (Hk & obj_id & old & Hid & Hold).
    erewrite delete_succeeds; eauto.
Qed.

(** X3.  A successful delete answers "Announcement deleted successfully";
    the collection afterwards is the one before without the first document
    that carries the identifier, every other document, their order and the
    teachers being untouched. *)
Theorem delete_removes_one_record :
  forall (announcement_id : string) (cred : option string) (s s' : db)
         (r : string),
    delete_announcement announcement_id cred s = (Return r, s') ->
    r = "Announcement deleted successfully"
    /\ exists obj_id old before after,
         Bson.parse announcement_id = Some obj_id
         /\ announcements_collection s = (before ++ old :: after)%list
         /\ absent_id obj_id before
         /\ _id old = obj_id
         /\ announcements_collection s' = (before ++ after)%list
         /\ teachers_collection s' = teachers_collection s.
Proof.
  intros announcement_id cred s s' r H.
  destruct (delete_outcome _ _ _ _ _ H)
    as [(x & Hx & _) | (obj_id & old & _ & Hid & Hold & Hr & Hs')];
    [discriminate|].
  inversion Hr; subst r; split; [reflexivity|].
  destruct (delete_one_frame _ _ _ Hold) as (before & after & Hc & Hb & Ho & Hd).
  exists obj_id, old, before, after; subst s'; simpl.
  repeat split; auto.
Qed.

Lemma delete_removes_one_record_witness :
  "Announcement deleted successfully" = "Announcement deleted successfully"
  /\ exists obj_id old before after,
       Bson.parse "000000000000000000000001" = Some obj_id
       /\ announcements_collection school_with_exam
          = (before ++ old :: after)%list
       /\ absent_id obj_id before
       /\ _id old = obj_id
       /\ announcements_collection school = (before ++ after)%list
       /\ teachers_collection school = teachers_collection school_with_exam.
Proof.
  exact (delete_removes_one_record "000000000000000000000001"
           (Some "mrodriguez") school_with_exam school
           "Announcement deleted successfully" eq_refl).
Defined.

(** X4.  With unique identifiers, once an announcement is deleted every
    later update or delete under the same identifier, by any teacher and
    with any other arguments, ends in status 404 "Announcement not found"
    and writes nothing. *)
Theorem deleted_record_is_not_found :
  forall (lib : Library) (announcement_id : string) (cred : option string)
         (s s' : db) (r : string),
    unique_ids s ->
    delete_announcement announcement_id cred s = (Return r, s') ->
    forall cred' m e sd,
      known_teacher cred' s' ->
      update_announcement announcement_id m e sd cred' s'
      = (Raise announcement_not_found, s')
      /\ delete_announcement announcement_id cred' s'
         = (Raise announcement_not_found, s').
Proof.
  intros lib announcement_id cred s s' r Hu H cred' m e sd Hk.
  destruct (delete_outcome _ _ _ _ _ H)
    as [(x & Hx & _) | (obj_id & old & _ & Hid & _ & _ & Hs')];
    [discriminate|].
  assert (Ha : absent_id obj_id (announcements_collection s')).
  { subst s'; simpl; apply delete_one_absent; exact Hu. }
  split; [eapply update_missing_record | eapply delete_missing_record]; eauto.
Qed.

Lemma deleted_record_is_not_found_witness :
  unique_ids school_with_exam
  /\ delete_announcement "000000000000000000000001" (Some "mrodriguez") school
     = (Raise announcement_not_found, school).
Proof.
  assert (Hu : unique_ids school_with_exam).
  { unfold unique_ids; simpl; constructor; [intros []|constructor]. }
  split; [exact Hu|].
  exact (proj2 (deleted_record_is_not_found Iso.python
                  "000000000000000000000001" (Some "mrodriguez")
                  school_with_exam school "Announcement deleted successfully"
                  Hu eq_refl (Some "mrodriguez") "" "" None
                  (mrodriguez_known _))).
Defined.



(** * When create and update succeed *)

Lemma le_false_iff_lt : forall a b,
  Datetime.le a b = Some false <-> Datetime.lt b a = Some true.
Proof.
  intros a b; unfold Datetime.le, Datetime.lt, cmp.
  destruct (tzinfo a), (tzinfo b); try (split; discriminate).
  - rewrite (Z.compare_antisym (wall_micros a - z) (wall_micros b - z0)).
    destruct (wall_micros a - z ?= wall_micros b - z0); simpl;
      split; congruence.
  - rewrite (Z.compare_antisym (wall_micros a) (wall_micros b)).
    destruct (wall_micros a ?= wall_micros b); simpl; split; congruence.
Qed.

(** Past the future check, the expiration date is a naive value after the
    clock. *)
Lemma lt_now_instants : forall t d,
  Datetime.lt (Datetime.now t) d = Some true ->
  utc_micros (Datetime.now t) < utc_micros d.
Proof.
  intros t d; unfold Datetime.lt, cmp, utc_micros; rewrite now_naive.
  destruct (tzinfo d); [discriminate|].
  destruct (wall_micros (Datetime.now t) ?= wall_micros d) eqn:E;
    try discriminate.
  intros _; apply Z.compare_lt_iff; exact E.
Qed.

Section Success.
Context {lib : Library}.

Lemma start_date_accepted_iff : forall start_date exp_date start_dt s,
  start_date_accepted start_date exp_date start_dt <->
  (parse_start_date start_date s = (Return start_dt, s)
   /\ forall x, start_dt = Some x -> Datetime.ge x exp_date = Some false).
Proof.
  intros start_date exp_date start_dt s; split;
    [apply start_date_accepted_parse|].
  intros [Hp Hlate]; unfold parse_start_date in Hp.
  destruct start_date as [str|].
  - destruct (Str.truthy str) eqn:Ht.
    + destruct (fromisoformat _) as [d|] eqn:Hd; [|discriminate].
      inversion Hp; subst; right.
      exists str, d; repeat split; auto using ge_false_lt.
    + inversion Hp; subst; left; auto.
  - inversion Hp; subst; left; auto.
Qed.

Lemma create_succeeds :
  forall s cred message expiration_date start_date t_check t_created
         exp_date start_dt,
    known_teacher cred s ->
    Str.strip message <> EmptyString ->
    fromisoformat (Str.replace "Z"%char "+00:00" expiration_date)
    = Some exp_date ->
    parse_start_date start_date s = (Return start_dt, s) ->
    Datetime.le exp_date (Datetime.now t_check) = Some false ->
    (forall x, start_dt = Some x -> Datetime.ge x exp_date = Some false) ->
    create_announcement message expiration_date start_date cred
      t_check t_created s
    = (Return (to_json
                 (mk_document (fresh_id (announcements_collection s))
                    (Str.strip message) start_dt exp_date
                    (Datetime.now t_created))),
       mk_db (announcements_collection s ++
              [mk_document (fresh_id (announcements_collection s))
                 (Str.strip message) start_dt exp_date
                 (Datetime.now t_created)])%list
             (teachers_collection s)).
Proof.
  intros s cred message expiration_date start_date t_check t_created
         exp_date start_dt Hk Hm He Hs Hle Hlate.
  apply message_test_passes_iff in Hm.
  unfold create_announcement; pass_gate Hk.
  rewrite Hm, He, Hs, Hle; simpl.
  destruct start_dt as [x|]; [rewrite (Hlate x eq_refl)|]; reflexivity.
Qed.

Lemma create_blank_message : forall s cred message e sd t1 t2,
  known_teacher cred s ->
  Str.strip message = EmptyString ->
  create_announcement message e sd cred t1 t2 s = (Raise message_empty, s).
Proof.
  intros s cred message e sd t1 t2 Hk Hm.
  apply message_test_fails_on_blank in Hm.
  unfold create_announcement; pass_gate Hk.
  rewrite Hm; reflexivity.
Qed.

Lemma update_blank_message : forall s cred i obj_id old message e sd,
  known_teacher cred s ->
  Bson.parse i = Some obj_id ->
  find_one (q_id obj_id) (announcements_collection s) = Some old ->
  Str.strip message = EmptyString ->
  update_announcement i message e sd cred s = (Raise message_empty, s).
Proof.
  intros s cred i obj_id old message e sd Hk Hid Hold Hm.
  apply message_test_fails_on_blank in Hm.
  unfold update_announcement; pass_gate Hk.
  rewrite Hid, Hold, Hm; reflexivity.
Qed.

Lemma create_unparsable_expiration : forall s cred message e sd t1 t2,
  known_teacher cred s ->
  Str.strip message <> EmptyString ->
  fromisoformat (Str.replace "Z"%char "+00:00" e) = None ->
  create_announcement message e sd cred t1 t2 s
  = (Raise invalid_expiration_date, s).
Proof.
  intros s cred message e sd t1 t2 Hk Hm He.
  apply message_test_passes_iff in Hm.
  unfold create_announcement; pass_gate Hk.
  rewrite Hm, He; reflexivity.
Qed.

Lemma update_unparsable_expiration : forall s cred i obj_id old message e sd,
  known_teacher cred s ->
  Bson.parse i = Some obj_id ->
  find_one (q_id obj_id) (announcements_collection s) = Some old ->
  Str.strip message <> EmptyString ->
  fromisoformat (Str.replace "Z"%char "+00:00" e) = None ->
  update_announcement i message e sd cred s
  = (Raise invalid_expiration_date, s).
Proof.
  intros s cred i obj_id old message e sd Hk Hid Hold Hm He.
  apply message_test_passes_iff in Hm.
  unfold update_announcement; pass_gate Hk.
  rewrite Hid, Hold, Hm, He; reflexivity.
Qed.

End Success.

(** X6.  [create_announcement] succeeds exactly when the caller names a
    teacher, the message is not blank, the expiration date parses to a
    value Python orders strictly after the clock (so one without UTC
    offset), and the start date is absent, empty, or parses to a value
    Python orders strictly before the expiration date. *)
Theorem create_succeeds_exactly_when :
  forall (lib : Library) (s : db) (cred : option string)
         (message expiration_date : string) (start_date : option string)
         (t_check t_created : clock),
    (exists r s',
        create_announcement message expiration_date start_date cred
          t_check t_created s = (Return r, s'))
    <-> (known_teacher cred s
         /\ Str.strip message <> EmptyString
         /\ exists exp_date start_dt,
              fromisoformat (Str.replace "Z"%char "+00:00" expiration_date)
              = Some exp_date
              /\ Datetime.lt (Datetime.now t_check) exp_date = Some true
              /\ start_date_accepted start_date exp_date start_dt).
Proof.
  intros lib s cred message expiration_date start_date t_check t_created.
  split.
  - intros (r & s' & H).
    destruct (create_outcome _ _ _ _ _ _ _ _ _ H)
      as [(x & Hx & _) | (start_dt & exp_date & Hk & Hm & He & Hs & Hle
                          & Hlate & _)];
      [discriminate|].
    split; [assumption | split; [assumption|]].
    exists exp_date, start_dt; split; [assumption | split].
    + apply le_false_iff_lt; assumption.
    + apply (start_date_accepted_iff _ _ _ s); auto.
  - intros (Hk & Hm & exp_date & start_dt & He & Hlt & Hsd).
    apply (start_date_accepted_iff _ _ _ s) in Hsd as [Hs Hlate].
    apply le_false_iff_lt in Hlt.
    erewrite create_succeeds; eauto.
Qed.

(** X7.  A successful create appends exactly one document to the
    collection and touches nothing else.  The document carries an
    identifier no stored announcement had, the trimmed message, the parsed
    expiration date and the second clock reading as [created_at]; looking
    the identifier up afterwards finds it, and the answer is its
    conversion. *)
Theorem create_appends_one_record :
  forall (lib : Library) (s s' : db) (cred : option string)
         (message expiration_date : string) (start_date : option string)
         (t_check t_created : clock) (r : announcement),
    create_announcement message expiration_date start_date cred
      t_check t_created s = (Return r, s') ->
    exists doc,
      announcements_collection s'
      = (announcements_collection s ++ [doc])%list
      /\ teachers_collection s' = teachers_collection s
      /\ absent_id (_id doc) (announcements_collection s)
      /\ Mongo.message doc = Str.strip message
      /\ fromisoformat (Str.replace "Z"%char "+00:00" expiration_date)
         = Some (Mongo.expiration_date doc)
      /\ parse_start_date start_date s = (Return (Mongo.start_date doc), s)
      /\ created_at doc = Datetime.now t_created
      /\ find_one (q_id (_id doc)) (announcements_collection s') = Some doc
      /\ r = to_json doc.
Proof.
  intros lib s s' cred message expiration_date start_date t_check t_created
         r H.
  destruct (create_outcome _ _ _ _ _ _ _ _ _ H)
    as [(x & Hx & _) | (start_dt & exp_date & _ & _ & He & Hs & _ & _
                        & Hr & Hs')];
    [discriminate|].
  exists (mk_document (fresh_id (announcements_collection s))
            (Str.strip message) start_dt exp_date (Datetime.now t_created)).
  subst s'; inversion Hr; subst r; simpl.
  repeat split; try assumption.
  - apply fresh_id_absent.
  - apply find_one_appended; [apply fresh_id_absent | reflexivity].
Qed.

Lemma create_appends_one_record_witness :
  exists doc,
    announcements_collection school_with_exam
    = (announcements_collection school ++ [doc])%list
    /\ teachers_collection school_with_exam = teachers_collection school
    /\ absent_id (_id doc) (announcements_collection school)
    /\ Mongo.message doc = Str.strip "  Exam tomorrow "
    /\ created_at doc = Datetime.now (at_clock 2026 11 3 9 0 0 1)
    /\ find_one (q_id (_id doc)) (announcements_collection school_with_exam)
       = Some doc.
Proof.
  destruct (create_appends_one_record Iso.python school school_with_exam
              (Some "mrodriguez") "  Exam tomorrow " "2099-01-01T00:00:00"
              None (at_clock 2026 11 3 9 0 0 0) (at_clock 2026 11 3 9 0 0 1)
              (mk_announcement "000000000000000000000001" "Exam tomorrow"
                 None "2099-01-01T00:00:00" "2026-11-03T09:00:00.000001")
              eq_refl)
    as (doc & H1 & H2 & H3 & H4 & _ & _ & H7 & H8 & _).
  exists doc; repeat split; assumption.
Defined.

(** X8.  [update_announcement] succeeds exactly when the caller names a
    teacher, the identifier is well formed and names a stored announcement,
    the message is not blank, the expiration date parses, and the start
    date is absent, empty, or parses to a value Python orders strictly
    before the expiration date.  The clock plays no part. *)
Theorem update_succeeds_exactly_when :
  forall (lib : Library) (s : db) (cred : option string)
         (announcement_id message expiration_date : string)
         (start_date : option string),
    (exists r s',
        update_announcement announcement_id message expiration_date
          start_date cred s = (Return r, s'))
    <-> (known_teacher cred s
         /\ (exists obj_id old,
                Bson.parse announcement_id = Some obj_id
                /\ find_one (q_id obj_id) (announcements_collection s)
                   = Some old)
         /\ Str.strip message <> EmptyString
         /\ exists exp_date start_dt,
              fromisoformat (Str.replace "Z"%char "+00:00" expiration_date)
              = Some exp_date
              /\ start_date_accepted start_date exp_date start_dt).
Proof.
  intros lib s cred announcement_id message expiration_date start_date.
  split.
  - intros (r & s' & H).
    destruct (update_outcome _ _ _ _ _ _ _ _ H)
      as [(x & Hx & _) | (obj_id & old & start_dt & exp_date & Hk & Hid
                          & Hold & Hm & He & Hs & Hlate & _)];
      [discriminate|].
    split; [assumption | split; [eauto | split; [assumption|]]].
    exists exp_date, start_dt; split; [assumption|].
    apply (start_date_accepted_iff _ _ _ s); auto.
  - intros (Hk & (obj_id & old & Hid & Hold) & Hm & exp_date & start_dt
            & He & Hsd).
    apply (start_date_accepted_iff _ _ _ s) in Hsd as [Hs Hlate].
    erewrite update_succeeds; eauto.
Qed.

(** X9.  For a caller who names a teacher, a message that is empty or made
    of whitespace only makes create, and update on a stored announcement,
    end in status 400 "Message cannot be empty" whatever the dates are,
    well formed or not; nothing is written. *)
Theorem blank_message_is_rejected_first :
  forall (lib : Library) (s : db) (cred : option string)
         (message : string),
    known_teacher cred s ->
    Str.whitespace_only message = true ->
    forall e sd,
      (forall t1 t2,
          create_announcement message e sd cred t1 t2 s
          = (Raise message_empty, s))
      /\ (forall i obj_id old,
             Bson.parse i = Some obj_id ->
             find_one (q_id obj_id) (announcements_collection s) = Some old ->
             update_announcement i message e sd cred s
             = (Raise message_empty, s)).
Proof.
  intros lib s cred message Hk Hw e sd.
  apply whitespace_only_strip in Hw.
  split; intros.
  - apply create_blank_message; assumption.
  - eapply update_blank_message; eauto.
Qed.

Lemma blank_message_is_rejected_first_witness :
  known_teacher (Some "mrodriguez") school
  /\ Str.whitespace_only "   " = true
  /\ create_announcement (lib := Iso.python) "   " "not a date"
       (Some "nor this") (Some "mrodriguez")
       (at_clock 2026 11 3 9 0 0 0) (at_clock 2026 11 3 9 0 0 1) school
     = (Raise message_empty, school).
Proof.
  split; [apply mrodriguez_known | split; [reflexivity|]].
  exact (proj1 (blank_message_is_rejected_first Iso.python school
                  (Some "mrodriguez") "   " (mrodriguez_known _) eq_refl
                  "not a date" (Some "nor this"))
           (at_clock 2026 11 3 9 0 0 0) (at_clock 2026 11 3 9 0 0 1)).
Defined.

(** X10.  For a caller who names a teacher and a message that is not
    blank, an expiration date that cannot be parsed makes create, and
    update on a stored announcement, end in status 400 "Invalid
    expiration_date format. Use ISO format." whatever the start date is,
    parsable or not; nothing is written. *)
Theorem unparsable_expiration_date_is_rejected :
  forall (lib : Library) (s : db) (cred : option string)
         (message expiration_date : string),
    known_teacher cred s ->
    Str.strip message <> EmptyString ->
    fromisoformat (Str.replace "Z"%char "+00:00" expiration_date) = None ->
    forall sd,
      (forall t1 t2,
          create_announcement message expiration_date sd cred t1 t2 s
          = (Raise invalid_expiration_date, s))
      /\ (forall i obj_id old,
             Bson.parse i = Some obj_id ->
             find_one (q_id obj_id) (announcements_collection s) = Some old ->
             update_announcement i message expiration_date sd cred s
             = (Raise invalid_expiration_date, s)).
Proof.
  intros lib s cred message expiration_date Hk Hm He sd.
  split; intros.
  - apply create_unparsable_expiration; assumption.
  - eapply update_unparsable_expiration; eauto.
Qed.

Lemma unparsable_expiration_date_is_rejected_witness :
  known_teacher (Some "mrodriguez") school
  /\ Iso.fromisoformat (Str.replace "Z"%char "+00:00" "tomorrow") = None
  /\ create_announcement (lib := Iso.python) "Exam" "tomorrow"
       (Some "today") (Some "mrodriguez")
       (at_clock 2026 11 3 9 0 0 0) (at_clock 2026 11 3 9 0 0 1) school
     = (Raise invalid_expiration_date, school).
Proof.
  split; [apply mrodriguez_known | split; [reflexivity|]].
  assert (Hm : Str.strip "Exam" <> EmptyString) by discriminate.
  exact (proj1 (unparsable_expiration_date_is_rejected Iso.python school
                  (Some "mrodriguez") "Exam" "tomorrow" (mrodriguez_known _)
                  Hm eq_refl (Some "today"))
           (at_clock 2026 11 3 9 0 0 0) (at_clock 2026 11 3 9 0 0 1)).
Defined.

(** * What no call does *)

Lemma update_one_origin : forall q u c d',
  In d' (update_one q u c) ->
  exists d, In d c /\ _id d = _id d' /\ created_at d = created_at d'.
Proof.
  intros q u; induction c as [|x c IH]; simpl; intros d' H; [contradiction|].
  destruct (matches q x).
  - destruct H as [<- | H]; [exists x | exists d']; auto.
  - destruct H as [<- | H]; [exists x; auto|].
    destruct (IH d' H) as (d & Hd & Hi & Hc); exists d; auto.
Qed.

Lemma appended_unique : forall c d,
  NoDup (map _id c) -> absent_id (_id d) c ->
  NoDup (map _id (c ++ [d])%list).
Proof.
  intros c d Hn Ha; rewrite map_app; simpl.
  eapply Permutation_NoDup; [apply Permutation_cons_append|].
  constructor; [apply absent_id_not_in; assumption | assumption].
Qed.

Section Frames.
Context {lib : Library}.

Lemma step_teachers : forall s s',
  step s s' -> teachers_collection s' = teachers_collection s.
Proof.
  intros s s' Hstep; destruct Hstep as
    [t s r s' H | cred s r s' H | m e sd cred t1 t2 s r s' H
    | i m e sd cred s r s' H | i cred s r s' H].
  - unfold get_active_announcements in H; run_handler.
    inversion H; reflexivity.
  - apply get_all_outcome in H as [-> _]; reflexivity.
  - destruct (create_outcome _ _ _ _ _ _ _ _ _ H)
      as [(x & _ & ->) | (? & ? & _ & _ & _ & _ & _ & _ & _ & ->)];
      reflexivity.
  - destruct (update_outcome _ _ _ _ _ _ _ _ H)
      as [(x & _ & ->) | (? & ? & ? & ? & _ & _ & _ & _ & _ & _ & _ & -> & _)];
      reflexivity.
  - destruct (delete_outcome _ _ _ _ _ H)
      as [(x & _ & ->) | (? & ? & _ & _ & _ & _ & ->)];
      reflexivity.
Qed.

Lemma step_origin : forall s s',
  step s s' ->
  forall d', In d' (announcements_collection s') ->
    (exists d, In d (announcements_collection s)
               /\ _id d = _id d' /\ created_at d = created_at d')
    \/ (_id d' = fresh_id (announcements_collection s)
        /\ absent_id (_id d') (announcements_collection s)).
Proof.
  intros s s' Hstep d' Hin; destruct Hstep as
    [t s r s' H | cred s r s' H | m e sd cred t1 t2 s r s' H
    | i m e sd cred s r s' H | i cred s r s' H].
  - unfold get_active_announcements in H; run_handler.
    inversion H; subst; left; eauto.
  - apply get_all_outcome in H as [-> _]; left; eauto.
  - destruct (create_outcome _ _ _ _ _ _ _ _ _ H)
      as [(x & _ & ->) | (? & ? & _ & _ & _ & _ & _ & _ & _ & ->)];
      [left; eauto|].
    simpl in Hin; apply in_app_or in Hin as [Hin | [<- | []]];
      [left; eauto | right; simpl].
    split; [reflexivity | apply fresh_id_absent].
  - destruct (update_outcome _ _ _ _ _ _ _ _ H)
      as [(x & _ & ->) | (? & ? & ? & ? & _ & _ & _ & _ & _ & _ & _ & -> & _)];
      [left; eauto|].
    left; eapply update_one_origin; exact Hin.
  - destruct (delete_outcome _ _ _ _ _ H)
      as [(x & _ & ->) | (? & ? & _ & _ & _ & _ & ->)];
      [left; eauto|].
    simpl in Hin; apply delete_one_incl in Hin; left; eauto.
Qed.

Lemma step_unique : forall s s', step s s' -> unique_ids s -> unique_ids s'.
Proof.
  unfold unique_ids; intros s s' Hstep Hu; destruct Hstep as
    [t s r s' H | cred s r s' H | m e sd cred t1 t2 s r s' H
    | i m e sd cred s r s' H | i cred s r s' H].
  - unfold get_active_announcements in H; run_handler.
    inversion H; subst; assumption.
  - apply get_all_outcome in H as [-> _]; assumption.
  - destruct (create_outcome _ _ _ _ _ _ _ _ _ H)
      as [(x & _ & ->) | (? & ? & _ & _ & _ & _ & _ & _ & _ & ->)];
      [assumption|].
    simpl; apply appended_unique; [assumption | apply fresh_id_absent].
  - destruct (update_outcome _ _ _ _ _ _ _ _ H)
      as [(x & _ & ->) | (? & ? & ? & ? & _ & _ & _ & _ & _ & _ & _ & -> & _)];
      [assumption|].
    simpl; rewrite update_one_ids; assumption.
  - destruct (delete_outcome _ _ _ _ _ H)
      as [(x & _ & ->) | (? & ? & _ & _ & _ & _ & ->)];
      [assumption|].
    simpl; apply delete_one_unique; assumption.
Qed.

End Frames.

(** X11.  A call of get-all, create, update or delete that raises, for
    whatever reason, leaves the database exactly as it found it. *)
Theorem raising_calls_write_nothing :
  forall (lib : Library) (s s' : db) (x : exn),
    (forall cred, get_all_announcements cred s = (Raise x, s') -> s' = s)
    /\ (forall m e sd cred t1 t2,
           create_announcement m e sd cred t1 t2 s = (Raise x, s') -> s' = s)
    /\ (forall i m e sd cred,
           update_announcement i m e sd cred s = (Raise x, s') -> s' = s)
    /\ (forall i cred,
           delete_announcement i cred s = (Raise x, s') -> s' = s).
Proof.
  intros lib s s' x; repeat split; intros.
  - apply get_all_outcome in H as [-> _]; reflexivity.
  - destruct (create_outcome _ _ _ _ _ _ _ _ _ H)
      as [(? & _ & ->) | (? & ? & _ & _ & _ & _ & _ & _ & Hr & _)];
      [reflexivity | discriminate].
  - destruct (update_outcome _ _ _ _ _ _ _ _ H)
      as [(? & _ & ->) | (? & ? & ? & ? & _ & _ & _ & _ & _ & _ & _ & _ & Hr)];
      [reflexivity | discriminate].
  - destruct (delete_outcome _ _ _ _ _ H)
      as [(? & _ & ->) | (? & ? & _ & _ & _ & Hr & _)];
      [reflexivity | discriminate].
Qed.

Lemma raising_calls_write_nothing_witness :
  update_announcement (lib := Iso.python) "000000000000000000000001" "y"
    "2000-01-01T00:00:00" (Some "2000-01-01T00:00:00") (Some "mrodriguez")
    school_with_exam
  = (Raise (HTTPException 400 "Start date must be before expiration date"),
     school_with_exam)
  /\ school_with_exam = school_with_exam.
Proof.
  split; [reflexivity|].
  exact (proj1 (proj2 (proj2 (raising_calls_write_nothing Iso.python
           school_with_exam school_with_exam
           (HTTPException 400 "Start date must be before expiration date"))))
         "000000000000000000000001" "y" "2000-01-01T00:00:00"
         (Some "2000-01-01T00:00:00") (Some "mrodriguez") eq_refl).
Defined.

(** X12.  No call of the five operations writes to the teachers: in every
    database reached from [s0] the teachers are those of [s0]. *)
Theorem teachers_are_never_written :
  forall (lib : Library) (s0 s : db),
    reachable s0 s -> teachers_collection s = teachers_collection s0.
Proof.
  intros lib s0 s Hr; induction Hr as [|s s' _ IH Hstep]; [reflexivity|].
  rewrite (step_teachers _ _ Hstep); exact IH.
Qed.

Lemma school_with_exam_reachable :
  reachable (lib := Iso.python) school school_with_exam.
Proof.
  eapply reachable_step; [apply reachable_start|].
  eapply (step_create "  Exam tomorrow " "2099-01-01T00:00:00" None
            (Some "mrodriguez")
            (at_clock 2026 11 3 9 0 0 0) (at_clock 2026 11 3 9 0 0 1)).
  vm_compute; reflexivity.
Defined.

Lemma teachers_are_never_written_witness :
  teachers_collection school_with_exam = teachers_collection school.
Proof.
  exact (teachers_are_never_written Iso.python school school_with_exam
           school_with_exam_reachable).
Defined.

(** X13.  No call changes the identifier or the creation time of a stored
    announcement: after any call of the five operations, each stored
    document either has the [_id] and [created_at] of a document stored
    before the call, or is the one create just appended, under an
    identifier no document carried. *)
Theorem identifier_and_created_at_are_immutable :
  forall (lib : Library) (s s' : db),
    step s s' ->
    forall d', In d' (announcements_collection s') ->
      (exists d, In d (announcements_collection s)
                 /\ _id d = _id d' /\ created_at d = created_at d')
      \/ (_id d' = fresh_id (announcements_collection s)
          /\ absent_id (_id d') (announcements_collection s)).
Proof. intros lib s s'; apply step_origin. Qed.

Lemma identifier_and_created_at_are_immutable_witness :
  In (mk_document 1%N "Exam tomorrow" None
        (mk 2099 1 1 0 0 0 0 None) (mk 2026 11 3 9 0 0 1 None))
     (announcements_collection school_with_exam)
  /\ ((exists d, In d (announcements_collection school)
                 /\ _id d = 1%N
                 /\ created_at d = mk 2026 11 3 9 0 0 1 None)
      \/ (1%N = fresh_id (announcements_collection school)
          /\ absent_id 1%N (announcements_collection school))).
Proof.
  assert (Hin : In (mk_document 1%N "Exam tomorrow" None
                      (mk 2099 1 1 0 0 0 0 None) (mk 2026 11 3 9 0 0 1 None))
                   (announcements_collection school_with_exam))
    by (left; reflexivity).
  assert (Hstep : step (lib := Iso.python) school school_with_exam).
  { eapply (step_create "  Exam tomorrow " "2099-01-01T00:00:00" None
              (Some "mrodriguez")
              (at_clock 2026 11 3 9 0 0 0) (at_clock 2026 11 3 9 0 0 1)).
    vm_compute; reflexivity. }
  split; [exact Hin|].
  exact (identifier_and_created_at_are_immutable Iso.python school
           school_with_exam Hstep _ Hin).
Defined.

(** X14.  Identifiers stay unique: starting from a database in which no
    two announcements share an identifier, no sequence of calls of the five
    operations leads to one in which two do. *)
Theorem identifiers_stay_unique :
  forall (lib : Library) (s0 s : db),
    unique_ids s0 -> reachable s0 s -> unique_ids s.
Proof.
  intros lib s0 s H0 Hr; induction Hr as [|s s' _ IH Hstep];
    [assumption | eapply step_unique; eauto].
Qed.

Lemma identifiers_stay_unique_witness :
  unique_ids school /\ unique_ids school_with_exam.
Proof.
  assert (H0 : unique_ids school) by constructor.
  split; [exact H0|].
  exact (identifiers_stay_unique Iso.python school school_with_exam H0
           school_with_exam_reachable).
Defined.

(** * How the operations compose *)


Lemma hexval_hexdigit : forall v,
  (v < 16)%N -> Bson.hexval (Bson.hexdigit v) = Some v.
Proof.
  intros v H.
  destruct v as [|p]; [reflexivity|].
  do 4 (try destruct p as [p|p|]); try reflexivity; exfalso; lia.
Qed.

Lemma of_hex_cons : forall acc c r d,
  Bson.hexval c = Some d ->
  Bson.of_hex acc (String c r) = Bson.of_hex (16 * acc + d)%N r.
Proof. intros acc c r d H; simpl; rewrite H; reflexivity. Qed.

Lemma of_hex_to_hex : forall width v acc tail,
  (v < 16 ^ N.of_nat width)%N ->
  Bson.of_hex acc (Bson.to_hex width v tail)
  = Bson.of_hex (acc * 16 ^ N.of_nat width + v)%N tail.
Proof.
  induction width as [|w IH]; intros v acc tail H.
  - simpl in *; f_equal; lia.
  - rewrite Nat2N.inj_succ, N.pow_succ_r' in *.
    assert (Hq : (v / 16 < 16 ^ N.of_nat w)%N)
      by (apply N.Div0.div_lt_upper_bound; lia).
    assert (Hr : (v mod 16 < 16)%N) by (apply N.mod_lt; lia).
    change (Bson.to_hex (S w) v tail)
      with (Bson.to_hex w (v / 16)
              (String (Bson.hexdigit (v mod 16)) tail)).
    rewrite (IH _ _ _ Hq), (of_hex_cons _ _ _ _ (hexval_hexdigit _ Hr)).
    f_equal.
    pose proof (N.div_mod v 16); lia.
Qed.

Lemma length_to_hex : forall width v tail,
  String.length (Bson.to_hex width v tail)
  = (width + String.length tail)%nat.
Proof.
  induction width as [|w IH]; intros v tail; simpl; [reflexivity|].
  rewrite IH; simpl; lia.
Qed.

(** The text of an identifier reads back as that identifier. *)
Lemma parse_str : forall oid,
  (oid < id_bound)%N -> Bson.parse (Bson.str oid) = Some oid.
Proof.
  intros oid H; unfold Bson.parse, Bson.str.
  rewrite length_to_hex; simpl Nat.eqb.
  rewrite of_hex_to_hex; [reflexivity | exact H].
Qed.

Section Composition.
Context {lib : Library}.

Lemma get_active_run : forall t s,
  get_active_announcements t s
  = (Return (map to_json
               (sort_created_at_desc
                  (filter (active_window (Datetime.now t))
                     (announcements_collection s)))), s).
Proof.
  intros t s; unfold get_active_announcements, bind, announcements, ret, find.
  cbv zeta; do 4 f_equal.
  apply filter_ext; intros A; apply active_query_matches.
Qed.

Lemma in_sorted : forall d c,
  In d (sort_created_at_desc c) <-> In d c.
Proof.
  intros d c; split; apply Permutation_in;
    [apply Permutation_sym|]; apply sort_created_at_desc_perm.
Qed.

End Composition.

(** X15.  An announcement created without start date is active at once:
    after a successful create whose start date is absent or empty,
    [get_active_announcements], asked at the clock reading the future check
    used, lists the very record create answered with. *)
Theorem created_announcement_is_active :
  forall (lib : Library) (s s' : db) (cred : option string)
         (message expiration_date : string) (start_date : option string)
         (t_check t_created : clock) (r : announcement),
    Str.truthy_opt start_date = false ->
    create_announcement message expiration_date start_date cred
      t_check t_created s = (Return r, s') ->
    exists listed,
      get_active_announcements t_check s' = (Return listed, s')
      /\ In r listed.
Proof.
  intros lib s s' cred message expiration_date start_date t_check t_created
         r Hsd H.
  destruct (create_outcome _ _ _ _ _ _ _ _ _ H)
    as [(x & Hx & _) | (start_dt & exp_date & _ & _ & _ & Hs & Hle & _
                        & Hr & Hs')];
    [discriminate|].
  assert (Hnone : start_dt = None).
  { destruct start_date as [[|c str]|]; simpl in Hsd; try discriminate;
      unfold parse_start_date in Hs; simpl in Hs; inversion Hs; reflexivity. }
  subst start_dt.
  eexists; split; [apply get_active_run|].
  inversion Hr; subst r; apply in_map, in_sorted, filter_In.
  subst s'; simpl; split; [apply in_or_app; right; left; reflexivity|].
  unfold active_window; simpl.
  apply le_false_iff_lt, lt_now_instants in Hle.
  apply andb_true_iff; split; [apply Z.ltb_lt; exact Hle | reflexivity].
Qed.

Lemma created_announcement_is_active_witness :
  exists listed,
    get_active_announcements (lib := Iso.python)
      (at_clock 2026 11 3 9 0 0 0) school_with_exam
    = (Return listed, school_with_exam)
    /\ In (mk_announcement "000000000000000000000001" "Exam tomorrow"
             None "2099-01-01T00:00:00" "2026-11-03T09:00:00.000001") listed.
Proof.
  exact (created_announcement_is_active Iso.python school school_with_exam
           (Some "mrodriguez") "  Exam tomorrow " "2099-01-01T00:00:00" None
           (at_clock 2026 11 3 9 0 0 0) (at_clock 2026 11 3 9 0 0 1)
           (mk_announcement "000000000000000000000001" "Exam tomorrow"
              None "2099-01-01T00:00:00" "2026-11-03T09:00:00.000001")
           eq_refl eq_refl).
Defined.



(** X17.  Whatever [get_active_announcements] lists at any clock reading,
    [get_all_announcements] lists too for a caller who names a teacher. *)
Theorem active_announcements_are_among_all :
  forall (lib : Library) (s : db) (cred : option string) (t : clock),
    known_teacher cred s ->
    exists active all,
      get_active_announcements t s = (Return active, s)
      /\ get_all_announcements cred s = (Return all, s)
      /\ incl active all.
Proof.
  intros lib s cred t Hk.
  eexists; eexists; split; [apply get_active_run|].
  split; [apply get_all_known; assumption|].
  intros a Ha; apply in_map_iff in Ha as (d & <- & Hd).
  apply in_map, in_sorted.
  apply in_sorted, filter_In in Hd as [Hd _]; exact Hd.
Qed.

Lemma active_announcements_are_among_all_witness :
  known_teacher (Some "mrodriguez") school_with_exam
  /\ exists active all,
       get_active_announcements (lib := Iso.python)
         (at_clock 2026 11 3 9 0 0 0) school_with_exam
       = (Return active, school_with_exam)
       /\ get_all_announcements (lib := Iso.python) (Some "mrodriguez")
            school_with_exam
          = (Return all, school_with_exam)
       /\ incl active all.
Proof.
  split; [apply mrodriguez_known|].
  exact (active_announcements_are_among_all Iso.python school_with_exam
           (Some "mrodriguez") (at_clock 2026 11 3 9 0 0 0)
           (mrodriguez_known _)).
Defined.

(** X18.  Create then delete is a round trip: when create succeeds and the
    identifier it assigned fits in 24 hexadecimal digits, deleting under
    the identifier create answered with, by the same caller, succeeds and
    gives back the database create started from. *)
Theorem create_then_delete_restores_the_database :
  forall (lib : Library) (s s' : db) (cred : option string)
         (message expiration_date : string) (start_date : option string)
         (t_check t_created : clock) (r : announcement),
    (fresh_id (announcements_collection s) < id_bound)%N ->
    create_announcement message expiration_date start_date cred
      t_check t_created s = (Return r, s') ->
    delete_announcement (id_str r) cred s'
    = (Return "Announcement deleted successfully", s).
Proof.
  intros lib s s' cred message expiration_date start_date t_check t_created
         r Hb H.
  destruct (create_outcome _ _ _ _ _ _ _ _ _ H)
    as [(x & Hx & _) | (start_dt & exp_date & Hk & _ & _ & _ & _ & _
                        & Hr & Hs')];
    [discriminate|].
  inversion Hr; subst r; simpl id_str.
  assert (Hk' : known_teacher cred s').
  { destruct Hk as (u & t & Hc & Ht & Hf); exists u, t; subst s'; auto. }
  erewrite delete_succeeds;
    [ | exact Hk' | apply parse_str; exact Hb
      | subst s'; simpl; apply find_one_appended;
        [apply fresh_id_absent | reflexivity] ].
  subst s'; simpl.
  rewrite delete_one_appended; [destruct s; reflexivity | | reflexivity].
  apply fresh_id_absent.
Qed.

Lemma create_then_delete_restores_the_database_witness :
  (fresh_id (announcements_collection school) < id_bound)%N
  /\ delete_announcement "000000000000000000000001" (Some "mrodriguez")
       school_with_exam
     = (Return "Announcement deleted successfully", school).
Proof.
  assert (Hb : (fresh_id (announcements_collection school) < id_bound)%N)
    by reflexivity.
  split; [exact Hb|].
  exact (create_then_delete_restores_the_database Iso.python school
           school_with_exam (Some "mrodriguez") "  Exam tomorrow "
           "2099-01-01T00:00:00" None
           (at_clock 2026 11 3 9 0 0 0) (at_clock 2026 11 3 9 0 0 1)
           (mk_announcement "000000000000000000000001" "Exam tomorrow"
              None "2099-01-01T00:00:00" "2026-11-03T09:00:00.000001")
           Hb eq_refl).
Defined.

Lemma update_one_idempotent : forall oid u c,
  update_one (q_id oid) u (update_one (q_id oid) u c)
  = update_one (q_id oid) u c.
Proof.
  intros oid u; induction c as [|x c IH]; simpl; [reflexivity|].
  destruct (N.eqb (_id x) oid) eqn:E; simpl; rewrite E;
    [reflexivity | rewrite IH; reflexivity].
Qed.

(** X19.  Update is idempotent: repeating a successful update with the
    same arguments succeeds again, answers the same record and leaves the
    database as the first update left it. *)
Theorem update_is_idempotent :
  forall (lib : Library) (s s' : db) (cred : option string)
         (announcement_id message expiration_date : string)
         (start_date : option string) (r : announcement),
    update_announcement announcement_id message expiration_date start_date
      cred s = (Return r, s') ->
    update_announcement announcement_id message expiration_date start_date
      cred s' = (Return r, s').
Proof.
  intros lib s s' cred announcement_id message expiration_date start_date r H.
  destruct (update_outcome _ _ _ _ _ _ _ _ H)
    as [(x & Hx & _) | (obj_id & old & start_dt & exp_date & Hk & Hid & Hold
                        & Hm & He & Hs & Hlate & Hs' & Hr)];
    [discriminate|].
  set (u := mk_update (Str.strip message) start_dt exp_date) in *.
  assert (Hk' : known_teacher cred s').
  { destruct Hk as (n & t & Hc & Ht & Hf); exists n, t; subst s'; auto. }
  assert (Hold' : find_one (q_id obj_id) (announcements_collection s')
                  = Some (apply_set u old))
    by (subst s'; simpl; apply find_one_update_one; assumption).
  assert (Hacc : start_date_accepted start_date exp_date start_dt)
    by (apply (start_date_accepted_iff _ _ _ s); auto).
  apply (start_date_accepted_iff _ _ _ s') in Hacc as [Hs2 _].
  rewrite (update_succeeds s' cred announcement_id obj_id (apply_set u old)
             message expiration_date start_date exp_date start_dt
             Hk' Hid Hold' Hm He Hs2 Hlate).
  fold u; rewrite Hr; subst s'; simpl.
  rewrite update_one_idempotent; reflexivity.
Qed.

Lemma update_is_idempotent_witness :
  update_announcement (lib := Iso.python) "000000000000000000000001" "y"
    "2000-01-01T00:00:00Z" None (Some "mrodriguez")
    (mk_db [mk_document 1%N "y" None (mk 2000 1 1 0 0 0 0 (Some 0))
              (mk 2026 11 3 9 0 0 1 None)]
           [mk_teacher "mrodriguez"])
  = (Return (mk_announcement "000000000000000000000001" "y" None
               "2000-01-01T00:00:00+00:00" "2026-11-03T09:00:00.000001"),
     mk_db [mk_document 1%N "y" None (mk 2000 1 1 0 0 0 0 (Some 0))
              (mk 2026 11 3 9 0 0 1 None)]
           [mk_teacher "mrodriguez"]).
Proof.
  exact (update_is_idempotent Iso.python school_with_exam _
           (Some "mrodriguez") "000000000000000000000001" "y"
           "2000-01-01T00:00:00Z" None _ eq_refl).
Defined.



(** X21.  A scheduled announcement stays hidden until it starts: after a
    successful create whose start date, not empty, denotes an instant
    after the clock reading [t], every document
    [get_active_announcements] lists at [t] was stored before the create,
    while [get_all_announcements] lists the new record for the caller. *)
Theorem scheduled_announcement_is_hidden_until_start :
  forall (lib : Library) (s s' : db) (cred : option string)
         (message expiration_date start : string)
         (t_check t_created t : clock) (r : announcement)
         (start_dt : datetime),
    create_announcement message expiration_date (Some start) cred
      t_check t_created s = (Return r, s') ->
    Str.truthy start = true ->
    fromisoformat (Str.replace "Z"%char "+00:00" start) = Some start_dt ->
    utc_micros (Datetime.now t) < utc_micros start_dt ->
    exists active all,
      get_active_announcements t s' = (Return (map to_json active), s')
      /\ incl active (announcements_collection s)
      /\ get_all_announcements cred s' = (Return all, s')
      /\ In r all.
Proof.
  intros lib s s' cred message expiration_date start t_check t_created t r
         start_dt H Ht Hp Hlater.
  destruct (create_outcome _ _ _ _ _ _ _ _ _ H)
    as [(x & Hx & _) | (sd & exp_date & Hk & _ & _ & Hs & _ & _
                        & Hr & Hs')];
    [discriminate|].
  rewrite (parse_start_date_parsed start start_dt s Ht Hp) in Hs.
  inversion Hs; subst sd.
  assert (Hk' : known_teacher cred s').
  { destruct Hk as (n & u & Hc & Hn & Hf); exists n, u; subst s'; auto. }
  eexists; eexists; split; [apply get_active_run|].
  split; [|split; [apply get_all_known; assumption|]].
  - intros d Hd.
    apply (proj1 (in_sorted _ _)), filter_In in Hd as [Hin Hact].
    subst s'; simpl in Hin.
    apply in_app_or in Hin as [Hin | [<- | []]]; [exact Hin|].
    unfold active_window in Hact; simpl in Hact.
    apply andb_true_iff in Hact as [_ Hact].
    apply Z.leb_le in Hact; lia.
  - inversion Hr; subst r; apply in_map, in_sorted.
    subst s'; simpl; apply in_or_app; right; left; reflexivity.
Qed.

Lemma scheduled_announcement_is_hidden_until_start_witness :
  exists active all,
    get_active_announcements (lib := Iso.python)
      (at_clock 2026 11 3 9 0 0 0)
      (mk_db [mk_document 1%N "Exam" (Some (mk 2027 1 1 0 0 0 0 None))
                (mk 2099 1 1 0 0 0 0 None) (mk 2026 11 3 9 0 0 1 None)]
             [mk_teacher "mrodriguez"])
    = (Return (map (to_json (lib := Iso.python)) active),
       mk_db [mk_document 1%N "Exam" (Some (mk 2027 1 1 0 0 0 0 None))
                (mk 2099 1 1 0 0 0 0 None) (mk 2026 11 3 9 0 0 1 None)]
             [mk_teacher "mrodriguez"])
    /\ incl active (announcements_collection school)
    /\ get_all_announcements (lib := Iso.python) (Some "mrodriguez")
         (mk_db [mk_document 1%N "Exam" (Some (mk 2027 1 1 0 0 0 0 None))
                   (mk 2099 1 1 0 0 0 0 None) (mk 2026 11 3 9 0 0 1 None)]
                [mk_teacher "mrodriguez"])
       = (Return all,
          mk_db [mk_document 1%N "Exam" (Some (mk 2027 1 1 0 0 0 0 None))
                   (mk 2099 1 1 0 0 0 0 None) (mk 2026 11 3 9 0 0 1 None)]
                [mk_teacher "mrodriguez"])
    /\ In (mk_announcement "000000000000000000000001" "Exam"
             (Some "2027-01-01T00:00:00") "2099-01-01T00:00:00"
             "2026-11-03T09:00:00.000001") all.
Proof.
  assert (Hlater : utc_micros (Datetime.now (at_clock 2026 11 3 9 0 0 0))
                   < utc_micros (mk 2027 1 1 0 0 0 0 None))
    by reflexivity.
  exact (scheduled_announcement_is_hidden_until_start Iso.python school _
           (Some "mrodriguez") "Exam" "2099-01-01T00:00:00"
           "2027-01-01T00:00:00"
           (at_clock 2026 11 3 9 0 0 0) (at_clock 2026 11 3 9 0 0 1)
           (at_clock 2026 11 3 9 0 0 0) _ (mk 2027 1 1 0 0 0 0 None)
           eq_refl eq_refl eq_refl Hlater).
Defined.
